(** * SmartTender AI, local MVP: profile extraction, dedup and hybrid scoring

    A shallow embedding of [Backend/LocalMVP] ([app.py], [parsing.py],
    [database.py]) and the properties of its specification.

    Conventions of the model.
    - Python [int] is [Z]; Python [float] scores are exact rationals [Q]
      (the arithmetic of the scorer is read over the rationals, and
      [round(x, 2)] is rounding to the nearest hundredth, ties to even).
    - Python [str] is [string]; the character functions ([lower], [\w],
      [\d], [\s]) are the ones Python applies to ASCII text.
    - A JSON list is a [list]; [set(...)] is a duplicate-free list.
    - The SQLite tables are lists of rows with an AUTOINCREMENT counter. *)

From Stdlib Require Import ZArith QArith Qround Qminmax Lqa Lia.
From Stdlib Require Import List String Ascii Bool Permutation Sorted.
Import ListNotations.

Local Open Scope string_scope.
Local Open Scope list_scope.
Local Open Scope Z_scope.

(** ** Python helpers *)

Module Py.

(** [round(x)] to the nearest integer, ties to even. *)
Definition round_half_even (q : Q) : Z :=
  let f := Qfloor q in
  match Qcompare (q - inject_Z f) (1 # 2) with
  | Lt => f
  | Gt => f + 1
  | Eq => if Z.even f then f else f + 1
  end.

(** [round(x, 2)]. *)
Definition round2 (q : Q) : Q :=
  (inject_Z (round_half_even (q * 100)) / 100)%Q.

(** [s in l] for a list or set of strings. *)
Definition mem (s : string) (l : list string) : bool :=
  existsb (String.eqb s) l.

(** [set(l)]: the distinct elements of [l]. *)
Definition set (l : list string) : list string :=
  nodup string_dec l.

(** [a & b] on sets. *)
Definition inter (a b : list string) : list string :=
  filter (fun s => mem s b) a.

(** [a - b] on sets. *)
Definition diff (a b : list string) : list string :=
  filter (fun s => negb (mem s b)) a.

(** [sorted(l)] on strings: code point order, which on byte strings is
    [String.leb]. *)
Fixpoint insert_sorted (s : string) (l : list string) : list string :=
  match l with
  | [] => [s]
  | x :: r => if String.leb s x then s :: l else x :: insert_sorted s r
  end.

Definition sorted (l : list string) : list string :=
  fold_right insert_sorted [] l.

(** [len(l)] as a Python [int]. *)
Definition len {A : Type} (l : list A) : Z := Z.of_nat (List.length l).

(** [c.lower()] on an ASCII character. *)
Definition lower_ascii (c : ascii) : ascii :=
  let n := nat_of_ascii c in
  if (Nat.leb 65 n && Nat.leb n 90)%bool then ascii_of_nat (n + 32) else c.

(** [s.lower()]. *)
Fixpoint lower (s : string) : string :=
  match s with
  | EmptyString => EmptyString
  | String c r => String (lower_ascii c) (lower r)
  end.

End Py.

(** ** The profiles ([parse_cv_text], [parse_tender_text]) *)

(** An entry of [skills_and_interests.languages]. *)
Record Language : Type := mkLanguage {
  name : string;
  proficiency : option string
}.

(** The requirement profile built by [parse_tender_text]. *)
Record TenderJson : Type := mkTender {
  title : string;
  required_skills : list string;
  preferred_skills : list string;
  experience_level : Z;
  languages : list string;
  education_level : string;
  keywords : list string;
  summary : string
}.

(** The candidate profile built by [parse_cv_text]; the nested
    dictionaries are flattened and the always-empty lists are left out. *)
Record CvJson : Type := mkCv {
  full_name : string;
  email : string;
  phone : string;
  professional_summary : string;
  technical_skills : list string;
  soft_skills : list string;
  cv_languages : list Language;
  cv_experience_years : Z;
  cv_education_level : string;
  cv_keywords : list string
}.

(** ** The hybrid scorer ([app.py]) *)

(** [education_rank]: the dictionary lookup with default 0. *)
Definition education_rank (level : string) : Z :=
  if String.eqb level "" then 0
  else if String.eqb level "bachelor" then 1
  else if String.eqb level "master" then 2
  else if String.eqb level "phd" then 3
  else 0.

(** [semantic_distance_to_score]. *)
Definition semantic_distance_to_score (distance : option Q) : Q :=
  match distance with
  | None => 0%Q
  | Some d =>
      let clipped := Qmin (Qmax d 0) 1 in
      Py.round2 ((1 - clipped) * 100)%Q
  end.

(** The dictionary returned by [compute_lexical_score]. *)
Record Lexical : Type := mkLexical {
  lexical_score : Q;
  matched_skills : list string;
  missing_skills : list string;
  candidate_languages : list string;
  candidate_experience_years : Z;
  tender_languages : list string;
  required_experience : Z
}.

(** The set comprehension over the tender's languages. *)
Definition tender_language_set (t : TenderJson) : list string :=
  Py.set (map Py.lower
            (filter (fun l => negb (String.eqb l "")) (languages t))).

(** The set comprehension over the candidate's languages. *)
Definition cv_language_set (c : CvJson) : list string :=
  Py.set (map (fun item => Py.lower (name item))
            (filter (fun item => negb (String.eqb (name item) ""))
               (cv_languages c))).

Definition compute_lexical_score (tender_json : TenderJson) (cv_json : CvJson)
  : Lexical :=
  let required := Py.set (required_skills tender_json) in
  let cv_skills := Py.set (technical_skills cv_json) in
  let matched := Py.sorted (Py.inter required cv_skills) in
  let missing := Py.sorted (Py.diff required cv_skills) in
  let skill_score : Q :=
    match required with
    | [] => 25
    | _ => (inject_Z (Py.len matched) / inject_Z (Py.len required)) * 45
    end%Q in
  let t_languages := tender_language_set tender_json in
  let c_languages := cv_language_set cv_json in
  let language_score : Q :=
    match t_languages with
    | [] => 8
    | _ => (inject_Z (Py.len (Py.inter t_languages c_languages))
            / inject_Z (Py.len t_languages)) * 15
    end%Q in
  let required_exp := experience_level tender_json in
  let candidate_exp := cv_experience_years cv_json in
  let experience_score : Q :=
    if required_exp =? 0 then 8%Q
    else (Qmin (inject_Z candidate_exp / inject_Z required_exp) 1 * 15)%Q in
  let required_education := education_rank (education_level tender_json) in
  let candidate_education := education_rank (cv_education_level cv_json) in
  let education_score : Q :=
    if required_education =? 0 then 6%Q
    else if required_education <=? candidate_education then 10%Q else 4%Q in
  {| lexical_score :=
       Py.round2 (skill_score + language_score + experience_score
                  + education_score)%Q;
     matched_skills := matched;
     missing_skills := missing;
     candidate_languages := Py.sorted c_languages;
     candidate_experience_years := candidate_exp;
     tender_languages := Py.sorted t_languages;
     required_experience := required_exp |}.


(** ** Insertion-ordered dictionaries *)

Module Dict.

Section WithValues.
Context {K V : Type}.
(** Equality of keys. *)
Variable eqb : K -> K -> bool.

(** [d[k] = v]: an existing key keeps its position. *)
Fixpoint set (k : K) (v : V) (d : list (K * V)) : list (K * V) :=
  match d with
  | [] => [(k, v)]
  | (k', v') :: r =>
      if eqb k' k then (k, v) :: r else (k', v') :: set k v r
  end.

(** [d.get(k)]. *)
Fixpoint get (k : K) (d : list (K * V)) : option V :=
  match d with
  | [] => None
  | (k', v) :: r => if eqb k' k then Some v else get k r
  end.

End WithValues.

End Dict.

(** ** The store ([database.py]) *)

(** A row of [cv_documents]. *)
Record CvRow : Type := mkCvRow {
  cv_id : Z;
  cv_source_name : string;
  cv_file_path : string;
  cv_content_hash : string;
  cv_json_path : string;
  cv_full_name : string;
  cv_email : string;
  cv_phone : string;
  cv_row_experience_years : Z;
  cv_row_education_level : string;
  cv_search_text : string;
  cv_created_at : string;
  cv_updated_at : string
}.

(** A row of [tender_documents]; [required_skills_json] is kept as the
    list that the stored JSON text encodes. *)
Record TenderRow : Type := mkTenderRow {
  id : Z;
  source_name : string;
  file_path : string;
  content_hash : string;
  json_path : string;
  row_title : string;
  search_text : string;
  required_skills_json : list string;
  created_at : string
}.

(** The payload dictionary that [ingest_tender_file] hands to
    [insert_tender_document]. *)
Record TenderPayload : Type := mkTenderPayload {
  p_source_name : string;
  p_file_path : string;
  p_content_hash : string;
  p_json_path : string;
  p_title : string;
  p_search_text : string;
  p_required_skills : list string
}.

(** The [tender_documents] table: its rows in insertion order and the
    AUTOINCREMENT sequence (the largest id ever handed out). *)
Record TenderTable : Type := mkTenderTable {
  rows : list TenderRow;
  seq : Z
}.

(** [SELECT * FROM tender_documents WHERE content_hash = ?], [fetchone]. *)
Definition select_by_hash (h : string) (t : TenderTable) : option TenderRow :=
  find (fun r => String.eqb (content_hash r) h) (rows t).

(** [SELECT * FROM tender_documents WHERE id = ?], [fetchone]. *)
Definition select_by_id (i : Z) (t : TenderTable) : option TenderRow :=
  find (fun r => id r =? i) (rows t).

(** [LocalDatabase.insert_tender_document]: the returned row and the
    table afterwards; [now] is the value of [utc_now()]. *)
Definition insert_tender_document (now : string) (payload : TenderPayload)
    (t : TenderTable) : option TenderRow * TenderTable :=
  match select_by_hash (p_content_hash payload) t with
  | Some existing => (Some existing, t)
  | None =>
      let row_id := seq t + 1 in
      let row :=
        {| id := row_id;
           source_name := p_source_name payload;
           file_path := p_file_path payload;
           content_hash := p_content_hash payload;
           json_path := p_json_path payload;
           row_title := p_title payload;
           search_text := p_search_text payload;
           required_skills_json := p_required_skills payload;
           created_at := now |} in
      let t' := {| rows := rows t ++ [row]; seq := row_id |} in
      (select_by_id row_id t', t')
  end.

(** The part of [ingest_tender_file] that reaches the store: the
    fingerprint of the file's bytes keys the insertion. *)
Section IngestTender.
(** [hashlib.sha256(bytes).hexdigest()]. *)
Variable sha256_hexdigest : list ascii -> string.

Definition file_sha256 (file_bytes : list ascii) : string :=
  sha256_hexdigest file_bytes.

Definition ingest_tender_row (now path_name path json_path_ search_text_ : string)
    (file_bytes : list ascii) (tender_json : TenderJson) (t : TenderTable)
  : option TenderRow * TenderTable :=
  let content_hash_ := file_sha256 file_bytes in
  insert_tender_document now
    {| p_source_name := path_name;
       p_file_path := path;
       p_content_hash := content_hash_;
       p_json_path := json_path_;
       p_title := title tender_json;
       p_search_text := search_text_;
       p_required_skills := required_skills tender_json |} t.
End IngestTender.

(** ** The ranking engine ([search_candidates]) *)

(** An entry of the ranking list. *)
Record MatchResult : Type := mkMatch {
  m_cv_id : Z;
  candidate_name : string;
  source_file : string;
  score : Q;
  m_semantic_score : Q;
  m_lexical_score : Q;
  m_matched_skills : list string;
  m_missing_skills : list string;
  m_candidate_languages : list string;
  m_candidate_experience_years : Z;
  justification : list string
}.

(** The answer of the similarity index: the ids of the hits (the decimal
    strings written by [upsert_cv], read back by [int]) and their
    distances. *)
Record QueryResult : Type := mkQuery {
  ids : list Z;
  distances : list Q
}.

(** The loop over [enumerate(ids)] that fills [semantic_hits]; a hit
    without a distance is stored as [None]. *)
Fixpoint semantic_hits_from (idx : nat) (hit_ids : list Z) (dists : list Q)
    (hits : list (Z * option Q)) : list (Z * option Q) :=
  match hit_ids with
  | [] => hits
  | hit_id :: r =>
      semantic_hits_from (S idx) r dists
        (Dict.set Z.eqb hit_id (nth_error dists idx) hits)
  end.

Definition semantic_hits (query : QueryResult) : list (Z * option Q) :=
  semantic_hits_from 0 (ids query) (distances query) [].

(** [semantic_hits.get(cv_id)]: an absent key and a stored [None] both
    read as [None]. *)
Definition hit_distance (hits : list (Z * option Q)) (k : Z) : option Q :=
  match Dict.get Z.eqb k hits with
  | Some d => d
  | None => None
  end.

(** [a < b] on scores. *)
Definition Qltb (a b : Q) : bool := negb (Qle_bool b a).

(** [list.sort(key=score, reverse=True)]: descending and stable, an
    entry is placed before the first entry whose score is not greater. *)
Fixpoint insert_desc (x : MatchResult) (l : list MatchResult)
    : list MatchResult :=
  match l with
  | [] => [x]
  | y :: r => if Qltb (score x) (score y) then y :: insert_desc x r
              else x :: l
  end.

Definition sort_desc (l : list MatchResult) : list MatchResult :=
  fold_right insert_desc [] l.

Section Ranking.
(** [json.loads(Path(json_path).read_text())]; [None] when it raises. *)
Variable read_cv_json : string -> option CvJson.
(** [semantic_store.search(text, limit)]. *)
Variable semantic_search : string -> Z -> QueryResult.
(** [llm_notes or build_justification(...)]: the notes attached to an
    entry, from the oracle or synthesized. *)
Variable notes : TenderJson -> CvJson -> Lexical -> Q -> Q -> list string.
Variable SEARCH_TOP_K : Z.



End Ranking.

(** ** The catalog matcher ([parsing.py]) *)

Module Re.

(** The character classes of [re] on ASCII text. *)
Definition is_digit (c : ascii) : bool :=
  let n := nat_of_ascii c in (Nat.leb 48 n && Nat.leb n 57)%bool.

Definition is_alpha (c : ascii) : bool :=
  let n := nat_of_ascii c in
  ((Nat.leb 65 n && Nat.leb n 90) || (Nat.leb 97 n && Nat.leb n 122))%bool.

(** [\w]. *)
Definition is_word (c : ascii) : bool :=
  (is_digit c || is_alpha c || Nat.eqb (nat_of_ascii c) 95)%bool.

(** [\s]. *)
Definition is_space (c : ascii) : bool :=
  let n := nat_of_ascii c in
  ((Nat.leb 9 n && Nat.leb n 13) || (Nat.leb 28 n && Nat.leb n 32))%bool.

(** The text read at a position: the character before it, if any, and
    the characters from it on. *)
Definition not_word_before (prev : option ascii) : bool :=
  match prev with
  | None => true
  | Some c => negb (is_word c)
  end.

Definition not_word_next (s : list ascii) : bool :=
  match s with
  | [] => true
  | c :: _ => negb (is_word c)
  end.

(** [s] starts with the literal [p]: what follows it. *)
Fixpoint strip_prefix (p s : list ascii) : option (list ascii) :=
  match p, s with
  | [], _ => Some s
  | _ :: _, [] => None
  | a :: p', b :: s' =>
      if Ascii.eqb a b then strip_prefix p' s' else None
  end.

(** The same, ignoring case ([re.I]); [p] is a lower-case literal. *)
Fixpoint strip_prefix_i (p s : list ascii) : option (list ascii) :=
  match p, s with
  | [], _ => Some s
  | _ :: _, [] => None
  | a :: p', b :: s' =>
      if Ascii.eqb a (Py.lower_ascii b) then strip_prefix_i p' s' else None
  end.

(** [(?<!\w)alias(?!\w)] matches at this position. *)
Definition bounded_at (alias : list ascii) (prev : option ascii)
    (s : list ascii) : bool :=
  (not_word_before prev
   && match strip_prefix alias s with
      | Some rest => not_word_next rest
      | None => false
      end)%bool.

(** [re.search] of a pattern given by its test at a position: every
    position of the text is tried, the end included. *)
Fixpoint search_from (at_pos : option ascii -> list ascii -> bool)
    (prev : option ascii) (s : list ascii) : bool :=
  (at_pos prev s
   || match s with
      | [] => false
      | c :: r => search_from at_pos (Some c) r
      end)%bool.

Definition search (at_pos : option ascii -> list ascii -> bool)
    (text : string) : bool :=
  search_from at_pos None (list_ascii_of_string text).

(** [alias in text]. *)
Definition contains (alias text : string) : bool :=
  search (fun _ s =>
            match strip_prefix (list_ascii_of_string alias) s with
            | Some _ => true
            | None => false
            end) text.

(** [re.search(r"(?<!\w)" + re.escape(alias) + r"(?!\w)", text)]. *)
Definition search_bounded (alias text : string) : bool :=
  search (bounded_at (list_ascii_of_string alias)) text.

End Re.

Definition SKILL_CATALOG : list (string * list string) :=
  [ ("python", ["python"]);
    ("java", ["java"]);
    ("javascript", ["javascript"; "js"]);
    ("typescript", ["typescript"; "ts"]);
    ("react", ["react"]);
    ("angular", ["angular"]);
    ("node.js", ["node.js"; "nodejs"; "node js"]);
    ("fastapi", ["fastapi"]);
    ("flask", ["flask"]);
    ("django", ["django"]);
    ("spring boot", ["spring boot"]);
    ("sql", ["sql"; "postgresql"; "mysql"; "sqlite"]);
    ("mongodb", ["mongodb"]);
    ("docker", ["docker"]);
    ("kubernetes", ["kubernetes"; "k8s"]);
    ("git", ["git"; "github"; "gitlab"]);
    ("linux", ["linux"]);
    ("aws", ["aws"]);
    ("azure", ["azure"]);
    ("gcp", ["gcp"; "google cloud"]);
    ("tensorflow", ["tensorflow"]);
    ("pytorch", ["pytorch"]);
    ("machine learning", ["machine learning"; "ml"]);
    ("deep learning", ["deep learning"]);
    ("nlp", ["nlp"; "natural language processing"]);
    ("data analysis", ["data analysis"; "analytics"]);
    ("power bi", ["power bi"; "powerbi"]);
    ("excel", ["excel"]);
    ("scrum", ["scrum"]);
    ("agile", ["agile"]);
    ("devops", ["devops"]);
    ("ci/cd", ["ci/cd"; "ci cd"; "jenkins"; "github actions"]) ].

Definition LANGUAGE_CATALOG : list (string * list string) :=
  [ ("english", ["english"; "anglais"]);
    ("french", ["french"; "francais"; "français"]);
    ("arabic", ["arabic"; "arabe"]);
    ("german", ["german"; "allemand"]);
    ("spanish", ["spanish"; "espagnol"]) ].

Definition EDUCATION_KEYWORDS : list (string * list string) :=
  [ ("phd", ["phd"; "doctorate"]);
    ("master", ["master"; "msc"; "engineer"; "ingénieur"; "ingenieur"]);
    ("bachelor", ["bachelor"; "licence"; "bsc"]) ].

(** [detect_skills]. *)
Definition detect_skills (text : string) : list string :=
  let lowered := Py.lower text in
  let found :=
    map fst
      (filter (fun entry =>
                 existsb (fun alias => Re.search_bounded (Py.lower alias) lowered)
                   (snd entry))
         SKILL_CATALOG) in
  Py.sorted (Py.set found).

(** [s.title()] on ASCII text: a letter is upper-cased after a character
    that is not a letter and lower-cased after a letter. *)
Definition upper_ascii (c : ascii) : ascii :=
  let n := nat_of_ascii c in
  if (Nat.leb 97 n && Nat.leb n 122)%bool then ascii_of_nat (n - 32) else c.

Fixpoint title_from (after_letter : bool) (s : string) : string :=
  match s with
  | EmptyString => EmptyString
  | String c r =>
      String (if after_letter then Py.lower_ascii c else upper_ascii c)
        (title_from (Re.is_alpha c) r)
  end.

Definition title_case (s : string) : string := title_from false s.

(** [detect_languages]. *)
Definition detect_languages (text : string) : list Language :=
  let lowered := Py.lower text in
  map (fun entry => {| name := title_case (fst entry); proficiency := None |})
    (filter (fun entry =>
               existsb (fun alias => Re.contains alias lowered) (snd entry))
       LANGUAGE_CATALOG).

(** [detect_education_level]. *)
Definition detect_education_level (text : string) : string :=
  let lowered := Py.lower text in
  match find (fun entry =>
                existsb (fun alias => Re.contains alias lowered) (snd entry))
          EDUCATION_KEYWORDS with
  | Some entry => fst entry
  | None => ""
  end.

(** ** Experience estimation ([estimate_cv_experience_years]) *)

(** The value of a decimal digit and of a run of digits ([int(...)]). *)
Definition digit_value (c : ascii) : Z := Z.of_nat (nat_of_ascii c) - 48.

Definition digits_value (ds : list ascii) : Z :=
  fold_left (fun acc c => 10 * acc + digit_value c) ds 0.

(** [\b(19\d{2}|20\d{2})\b] at a position: the year it captures. *)
Definition year_at (prev : option ascii) (s : list ascii) : option Z :=
  match s with
  | a :: b :: c :: d :: rest =>
      if (Re.not_word_before prev
          && ((Ascii.eqb a "1" && Ascii.eqb b "9")
              || (Ascii.eqb a "2" && Ascii.eqb b "0"))
          && Re.is_digit c && Re.is_digit d
          && Re.not_word_next rest)%bool
      then Some (digits_value [a; b; c; d])
      else None
  | _ => None
  end.

(** [re.findall] of a pattern that captures a number, given by its test
    at a position. A match of the year pattern spans four digits between
    two word boundaries, so no other match starts inside it and trying
    every position finds the same matches as resuming after each one. *)
Fixpoint findall_from (at_pos : option ascii -> list ascii -> option Z)
    (prev : option ascii) (s : list ascii) : list Z :=
  let here := match at_pos prev s with Some y => [y] | None => [] end in
  match s with
  | [] => here
  | c :: r => here ++ findall_from at_pos (Some c) r
  end.

Definition findall_years (text : string) : list Z :=
  findall_from year_at None (list_ascii_of_string text).

(** The longest run of digits at the head of [s], and what follows. *)
Fixpoint span_digits (s : list ascii) : list ascii * list ascii :=
  match s with
  | c :: r =>
      if Re.is_digit c
      then let (ds, rest) := span_digits r in (c :: ds, rest)
      else ([], s)
  | [] => ([], [])
  end.

Fixpoint skip_spaces (s : list ascii) : list ascii :=
  match s with
  | c :: r => if Re.is_space c then skip_spaces r else s
  | [] => []
  end.

(** [(?:years|year|ans|an)\b], ignoring case. *)
Definition unit_word_at (s : list ascii) : bool :=
  existsb (fun w =>
             match Re.strip_prefix_i (list_ascii_of_string w) s with
             | Some rest => Re.not_word_next rest
             | None => false
             end)
    ["years"; "year"; "ans"; "an"].

(** [(\d+)\+?\s*(?:years|year|ans|an)\b] at a position, ignoring case:
    the number it captures. The digits, the sign and the blanks are
    matched greedily, and giving any of them back leaves a character
    that the rest of the pattern cannot match. *)
Definition explicit_at (_ : option ascii) (s : list ascii) : option Z :=
  match span_digits s with
  | ([], _) => None
  | (ds, rest) =>
      let rest1 :=
        match rest with
        | c :: r => if Ascii.eqb c "+" then r else rest
        | [] => rest
        end in
      if unit_word_at (skip_spaces rest1) then Some (digits_value ds) else None
  end.

(** The first match of the explicit phrase, [explicit[0]]. *)
Fixpoint first_match (at_pos : option ascii -> list ascii -> option Z)
    (prev : option ascii) (s : list ascii) : option Z :=
  match at_pos prev s with
  | Some y => Some y
  | None =>
      match s with
      | [] => None
      | c :: r => first_match at_pos (Some c) r
      end
  end.

Definition first_explicit (text : string) : option Z :=
  first_match explicit_at None (list_ascii_of_string text).

(** [sorted(...)] on integers. *)
Fixpoint insert_Z (x : Z) (l : list Z) : list Z :=
  match l with
  | [] => [x]
  | y :: r => if x <=? y then x :: l else y :: insert_Z x r
  end.

Definition sorted_Z (l : list Z) : list Z := fold_right insert_Z [] l.

(** [min(l)] of a list with head [x]. *)
Definition min_list (x : Z) (l : list Z) : Z := fold_left Z.min l x.

(** [estimate_cv_experience_years]; [current_year] is
    [datetime.now().year]. *)
Definition estimate_cv_experience_years (current_year : Z) (text : string) : Z :=
  let years := sorted_Z (nodup Z.eq_dec (findall_years text)) in
  let valid_years :=
    filter (fun year => (1980 <=? year) && (year <=? current_year))%bool years in
  match valid_years with
  | y0 :: _ :: _ =>
      Z.max 0 (Z.min (current_year - min_list y0 (tl valid_years)) 25)
  | [y0] => Z.max 1 (Z.min (current_year - y0) 25)
  | [] =>
      match first_explicit text with
      | Some n => n
      | None => 0
      end
  end.

(** *** The estimate as the specification words it *)







(** ** The enrichment merge ([ingest_cv_file]) *)

(** A value of the enrichment payload, as [json.loads] builds it. A
    number too large for a float, or the literal [Infinity], loads as an
    infinite float. *)
Inductive PyValue : Type :=
| PyNone
| PyBool (b : bool)
| PyInt (z : Z)
| PyFloat (q : Q)
| PyInf (negative : bool)
| PyNan
| PyStr (s : string)
| PyList
| PyDict.

(** The exceptions that [int(...)] raises. *)
Inductive Raised : Type := TypeError | ValueError | OverflowError.

(** [s.strip()]. *)
Fixpoint rstrip_list (s : list ascii) : list ascii :=
  match s with
  | [] => []
  | c :: r =>
      match rstrip_list r with
      | [] => if Re.is_space c then [] else [c]
      | r' => c :: r'
      end
  end.

Definition strip (s : string) : string :=
  string_of_list_ascii
    (rstrip_list (skip_spaces (list_ascii_of_string s))).

(** The digits of an integer literal: groups of digits separated by
    single underscores. *)
Fixpoint literal_digits (after_digit : bool) (s : list ascii)
    : option (list ascii) :=
  match s with
  | [] => if after_digit then Some [] else None
  | c :: r =>
      if Re.is_digit c then
        match literal_digits true r with
        | Some ds => Some (c :: ds)
        | None => None
        end
      else if (Ascii.eqb c "_" && after_digit)%bool then literal_digits false r
      else None
  end.

(** [int(s)] on a string. *)
Definition int_of_string (s : string) : Z + Raised :=
  let body := list_ascii_of_string (strip s) in
  let (negative, unsigned) :=
    match body with
    | c :: r =>
        if Ascii.eqb c "-" then (true, r)
        else if Ascii.eqb c "+" then (false, r)
        else (false, body)
    | [] => (false, body)
    end in
  match literal_digits false unsigned with
  | Some ds => inl (if negative then - digits_value ds else digits_value ds)
  | None => inr ValueError
  end.

(** [int(x)] on a float: truncation towards zero. *)
Definition truncate (q : Q) : Z :=
  if Qle_bool 0 q then Qfloor q else Qceiling q.

(** [int(v)]. *)
Definition py_int (v : PyValue) : Z + Raised :=
  match v with
  | PyNone => inr TypeError
  | PyBool b => inl (if b then 1 else 0)
  | PyInt z => inl z
  | PyFloat q => inl (truncate q)
  | PyInf _ => inr OverflowError
  | PyNan => inr ValueError
  | PyStr s => int_of_string s
  | PyList => inr TypeError
  | PyDict => inr TypeError
  end.

(** The enrichment payload of [enrich_cv], read through [.get]: an
    absent key is [None], an absent list is empty. *)
Record EnrichedCv : Type := mkEnriched {
  e_full_name : option string;
  e_email : option string;
  e_phone : option string;
  e_professional_summary : option string;
  e_technical_skills : list string;
  e_soft_skills : list string;
  e_languages : list string;
  e_education_level : option string;
  e_experience_years : PyValue
}.

(** [x or y] on strings. *)
Definition or_else (x : option string) (y : string) : string :=
  match x with
  | Some s => if String.eqb s "" then y else s
  | None => y
  end.

Definition nonblank (s : string) : bool := negb (String.eqb (strip s) "").

(** The merge of the technical skills. *)
Definition merge_technical_skills (heuristic llm_skills : list string)
    : list string :=
  match llm_skills with
  | [] => heuristic
  | _ =>
      let update := map (fun skill => Py.lower (strip skill))
                      (filter nonblank llm_skills) in
      Py.sorted (Py.set (heuristic ++ update))
  end.

(** The merge of the soft skills. *)
Definition merge_soft_skills (heuristic llm_soft_skills : list string)
    : list string :=
  match llm_soft_skills with
  | [] => heuristic
  | _ =>
      Py.sorted (Py.set (heuristic ++ map strip (filter nonblank llm_soft_skills)))
  end.

(** The merge of the languages, through a dictionary keyed by the
    lower-cased name. *)
Definition merge_languages (heuristic : list Language)
    (llm_languages : list string) : list Language :=
  match llm_languages with
  | [] => heuristic
  | _ =>
      let existing :=
        fold_left
          (fun d item => Dict.set String.eqb (Py.lower (name item)) item d)
          (filter (fun item => negb (String.eqb (name item) "")) heuristic)
          [] in
      let merged :=
        fold_left
          (fun d language =>
             Dict.set String.eqb (Py.lower (strip language))
               {| name := title_case (strip language); proficiency := None |} d)
          (filter nonblank llm_languages) existing in
      map snd merged
  end.

(** The block of [ingest_cv_file] under [if enriched_cv:]; an exception
    that the block does not catch ends the ingestion. *)
Definition merge_enrichment (cv_json : CvJson) (enriched_cv : option EnrichedCv)
    : CvJson + Raised :=
  match enriched_cv with
  | None => inl cv_json
  | Some e =>
      let education :=
        match e_education_level e with
        | Some s => if String.eqb s "" then cv_education_level cv_json
                    else Py.lower (strip s)
        | None => cv_education_level cv_json
        end in
      let experience : Z + Raised :=
        match e_experience_years e with
        | PyNone => inl (cv_experience_years cv_json)
        | v =>
            match py_int v with
            | inl n => inl n
            | inr TypeError => inl (cv_experience_years cv_json)
            | inr ValueError => inl (cv_experience_years cv_json)
            | inr exc => inr exc
            end
        end in
      match experience with
      | inr exc => inr exc
      | inl years =>
          inl {| full_name := or_else (e_full_name e) (full_name cv_json);
                 email := or_else (e_email e) (email cv_json);
                 phone := or_else (e_phone e) (phone cv_json);
                 professional_summary :=
                   or_else (e_professional_summary e)
                     (professional_summary cv_json);
                 technical_skills :=
                   merge_technical_skills (technical_skills cv_json)
                     (e_technical_skills e);
                 soft_skills :=
                   merge_soft_skills (soft_skills cv_json) (e_soft_skills e);
                 cv_languages :=
                   merge_languages (cv_languages cv_json) (e_languages e);
                 cv_experience_years := years;
                 cv_education_level := education;
                 cv_keywords := cv_keywords cv_json |}
      end
  end.

(** ** The scores as the specification words them *)

Module Spec.


(** [|a ∩ b|] for two collections read as sets: the number of distinct
    members of [a] that occur in [b]. *)
Definition card_inter (a b : list string) : Z :=
  Py.len (nodup string_dec (filter (fun s => Py.mem s b) a)).

(** [|a|] for a collection read as a set. *)
Definition card (a : list string) : Z := Py.len (nodup string_dec a).

(** The overlap component: [(|required ∩ candidate| / |required|) * weight]
    when [required] is non-empty, else [flat]. *)
Definition overlap (required candidate : list string) (weight flat : Q) : Q :=
  if card required =? 0 then flat
  else (inject_Z (card_inter required candidate)
        / inject_Z (card required) * weight)%Q.

(** The language names of both profiles, lower-cased, empty names left
    out. *)
Definition required_languages (t : TenderJson) : list string :=
  map Py.lower (filter (fun l => negb (String.eqb l "")) (languages t)).

Definition candidate_languages (c : CvJson) : list string :=
  map Py.lower
    (filter (fun l => negb (String.eqb l "")) (map name (cv_languages c))).

Definition experience (required candidate : Z) : Q :=
  if 0 <? required
  then (Qmin (inject_Z candidate / inject_Z required) 1 * 15)%Q
  else 8%Q.

Definition education (required_rank candidate_rank : Z) : Q :=
  if 0 <? required_rank
  then (if candidate_rank >=? required_rank then 10%Q else 4%Q)
  else 6%Q.

Definition lexical (t : TenderJson) (c : CvJson) : Q :=
  Py.round2
    (overlap (required_skills t) (technical_skills c) 45 25
     + overlap (required_languages t) (candidate_languages c) 15 8
     + experience (experience_level t) (cv_experience_years c)
     + education (education_rank (education_level t))
         (education_rank (cv_education_level c)))%Q.


End Spec.



(** A candidate profile with another list of technical skills, all
    else equal. *)
Definition with_technical_skills (c : CvJson) (skills : list string) : CvJson :=
  {| full_name := full_name c;
     email := email c;
     phone := phone c;
     professional_summary := professional_summary c;
     technical_skills := skills;
     soft_skills := soft_skills c;
     cv_languages := cv_languages c;
     cv_experience_years := cv_experience_years c;
     cv_education_level := cv_education_level c;
     cv_keywords := cv_keywords c |}.


(** A ranking in descending order of score. *)
Definition descending (l : list MatchResult) : Prop :=
  StronglySorted (fun a b => (score b <= score a)%Q) l.

(** An enrichment payload that carries technical skills only. *)
Definition skills_only (llm_skills : list string) : EnrichedCv :=
  {| e_full_name := None;
     e_email := None;
     e_phone := None;
     e_professional_summary := None;
     e_technical_skills := llm_skills;
     e_soft_skills := [];
     e_languages := [];
     e_education_level := None;
     e_experience_years := PyNone |}.

(** An enrichment payload that carries an experience figure only. *)
Definition experience_only (v : PyValue) : EnrichedCv :=
  {| e_full_name := None;
     e_email := None;
     e_phone := None;
     e_professional_summary := None;
     e_technical_skills := [];
     e_soft_skills := [];
     e_languages := [];
     e_education_level := None;
     e_experience_years := v |}.


(** A year allowed by the estimate: from 1980 to the current year. *)
Definition valid_year (current_year y : Z) : bool :=
  ((1980 <=? y) && (y <=? current_year))%bool.




(** The invariant of an AUTOINCREMENT table: no row carries an id above
    the sequence. *)
Definition table_ok (t : TenderTable) : Prop :=
  Forall (fun r => id r <= seq t) (rows t).

(** A table holding one tender, and a fingerprint function for it. *)
Definition stored_tender : TenderRow :=
  mkTenderRow 1 "call.txt" "bank/call.txt" "ab12" "parsed/call-ab12.json"
    "Call for tenders" "call for tenders python" ["python"] "2024-01-01T00:00:00".

Definition one_tender_table : TenderTable :=
  {| rows := [stored_tender]; seq := 1 |}.

Definition empty_tender_table : TenderTable := {| rows := []; seq := 0 |}.

Definition constant_digest (_ : list ascii) : string := "ab12".

Definition scenario_tender : TenderJson :=
  mkTender "tender" ["python"; "sql"] [] 3 [] "bachelor" [] "".

Definition scenario_cv : CvJson :=
  mkCv "candidate" "" "" "" ["python"] [] [] 3 "master" [].



Definition scenario_index (_ : string) (_ : Z) : QueryResult :=
  {| ids := [1]; distances := [0.25%Q] |}.


(** ** The candidate table and the match tables ([database.py]) *)

(** The payload dictionary that [ingest_cv_file] hands to
    [upsert_cv_document]. *)
Record CvPayload : Type := mkCvPayload {
  q_source_name : string;
  q_file_path : string;
  q_content_hash : string;
  q_json_path : string;
  q_full_name : string;
  q_email : string;
  q_phone : string;
  q_experience_years : Z;
  q_education_level : string;
  q_search_text : string
}.

(** The [cv_documents] table: its rows in insertion order and the
    AUTOINCREMENT sequence. *)
Record CvTable : Type := mkCvTable {
  cv_rows : list CvRow;
  cv_seq : Z
}.

(** [SELECT * FROM cv_documents WHERE content_hash = ?], [fetchone]. *)
Definition select_cv_by_hash (h : string) (t : CvTable) : option CvRow :=
  find (fun r => String.eqb (cv_content_hash r) h) (cv_rows t).

(** [SELECT * FROM cv_documents WHERE id = ?], [fetchone]. *)
Definition select_cv_by_id (i : Z) (t : CvTable) : option CvRow :=
  find (fun r => cv_id r =? i) (cv_rows t).

(** The row that [UPDATE cv_documents SET ... WHERE id = ?] leaves in the
    place of [r]: the identity, the fingerprint and the creation time
    stay. *)
Definition updated_cv_row (now : string) (payload : CvPayload) (r : CvRow)
    : CvRow :=
  {| cv_id := cv_id r;
     cv_source_name := q_source_name payload;
     cv_file_path := q_file_path payload;
     cv_content_hash := cv_content_hash r;
     cv_json_path := q_json_path payload;
     cv_full_name := q_full_name payload;
     cv_email := q_email payload;
     cv_phone := q_phone payload;
     cv_row_experience_years := q_experience_years payload;
     cv_row_education_level := q_education_level payload;
     cv_search_text := q_search_text payload;
     cv_created_at := cv_created_at r;
     cv_updated_at := now |}.

(** The row that [INSERT INTO cv_documents] appends. *)
Definition inserted_cv_row (now : string) (payload : CvPayload) (row_id : Z)
    : CvRow :=
  {| cv_id := row_id;
     cv_source_name := q_source_name payload;
     cv_file_path := q_file_path payload;
     cv_content_hash := q_content_hash payload;
     cv_json_path := q_json_path payload;
     cv_full_name := q_full_name payload;
     cv_email := q_email payload;
     cv_phone := q_phone payload;
     cv_row_experience_years := q_experience_years payload;
     cv_row_education_level := q_education_level payload;
     cv_search_text := q_search_text payload;
     cv_created_at := now;
     cv_updated_at := now |}.

(** [LocalDatabase.upsert_cv_document]: the returned row and the table
    afterwards; [now] is the value of [utc_now()]. *)
Definition upsert_cv_document (now : string) (payload : CvPayload)
    (t : CvTable) : option CvRow * CvTable :=
  match select_cv_by_hash (q_content_hash payload) t with
  | Some existing =>
      let t' :=
        {| cv_rows :=
             map (fun r => if cv_id r =? cv_id existing
                           then updated_cv_row now payload r else r)
               (cv_rows t);
           cv_seq := cv_seq t |} in
      (select_cv_by_id (cv_id existing) t', t')
  | None =>
      let row := inserted_cv_row now payload (cv_seq t + 1) in
      let t' := {| cv_rows := cv_rows t ++ [row]; cv_seq := cv_seq t + 1 |} in
      (select_cv_by_hash (q_content_hash payload) t', t')
  end.

(** [ORDER BY updated_at DESC, id DESC]: a row comes before another when
    its update time is later, or the same with a larger id. *)
Definition listed_before (a b : CvRow) : bool :=
  match String.compare (cv_updated_at a) (cv_updated_at b) with
  | Gt => true
  | Lt => false
  | Eq => cv_id b <=? cv_id a
  end.

Fixpoint insert_listed (x : CvRow) (l : list CvRow) : list CvRow :=
  match l with
  | [] => [x]
  | y :: r => if listed_before x y then x :: l else y :: insert_listed x r
  end.

(** [LocalDatabase.list_cv_documents]. *)
Definition list_cv_documents (t : CvTable) : list CvRow :=
  fold_right insert_listed [] (cv_rows t).

(** [LocalDatabase.count_cv_documents]. *)
Definition count_cv_documents (t : CvTable) : Z := Py.len (cv_rows t).

(** A row of [match_results]. *)
Record ResultRow : Type := mkResultRow {
  result_id : Z;
  run_id : Z;
  result_cv_id : Z;
  result_lexical_score : Q;
  result_semantic_score : Q;
  result_final_score : Q;
  matched_skills_json : list string;
  missing_skills_json : list string;
  justification_json : list string;
  result_created_at : string
}.

(** The [match_results] table. *)
Record ResultTable : Type := mkResultTable {
  result_rows : list ResultRow;
  result_seq : Z
}.

(** One [INSERT INTO match_results] of [store_match_results]. *)
Definition insert_result (now : string) (run : Z) (t : ResultTable)
    (result : MatchResult) : ResultTable :=
  {| result_rows :=
       result_rows t
       ++ [ {| result_id := result_seq t + 1;
               run_id := run;
               result_cv_id := m_cv_id result;
               result_lexical_score := m_lexical_score result;
               result_semantic_score := m_semantic_score result;
               result_final_score := score result;
               matched_skills_json := m_matched_skills result;
               missing_skills_json := m_missing_skills result;
               justification_json := justification result;
               result_created_at := now |} ];
     result_seq := result_seq t + 1 |}.

(** [LocalDatabase.store_match_results]: the results of the run are
    deleted, then the given ones are inserted in their order. *)
Definition store_match_results (now : string) (run : Z)
    (results : list MatchResult) (t : ResultTable) : ResultTable :=
  fold_left (insert_result now run) results
    {| result_rows := filter (fun r => negb (run_id r =? run)) (result_rows t);
       result_seq := result_seq t |}.

(** The results stored for a run, in the order of the table. *)
Definition results_of_run (run : Z) (t : ResultTable) : list ResultRow :=
  filter (fun r => run_id r =? run) (result_rows t).

(** What a stored row keeps of a ranking entry. *)
Definition stored_fields (r : ResultRow)
    : Z * Q * Q * Q * list string * list string * list string :=
  (result_cv_id r, result_lexical_score r, result_semantic_score r,
   result_final_score r, matched_skills_json r, missing_skills_json r,
   justification_json r).

Definition entry_fields (m : MatchResult)
    : Z * Q * Q * Q * list string * list string * list string :=
  (m_cv_id m, m_lexical_score m, m_semantic_score m, score m,
   m_matched_skills m, m_missing_skills m, justification m).

(** The invariants of the candidate table: the ids are distinct and not
    above the sequence, the fingerprints are distinct. *)
Definition cv_table_ok (t : CvTable) : Prop :=
  NoDup (map cv_id (cv_rows t))
  /\ NoDup (map cv_content_hash (cv_rows t))
  /\ Forall (fun r => cv_id r <= cv_seq t) (cv_rows t).

Definition empty_cv_table : CvTable := {| cv_rows := []; cv_seq := 0 |}.

Definition sample_cv_payload : CvPayload :=
  mkCvPayload "a.txt" "bank/a.txt" "h1" "parsed/a-h1.json" "A" "a@x.org" ""
    3 "master" "a python".


(** A run of ingestions, as [sync_cv_bank] and [process_pipeline] make
    them: each file is upserted in turn, with the time of its call. *)
Definition upsert_all (calls : list (string * CvPayload)) (t : CvTable)
    : CvTable :=
  fold_left (fun t call => snd (upsert_cv_document (fst call) (snd call) t))
    calls t.

(** The order of [list_cv_documents] between two neighbours. *)
Definition listed (a b : CvRow) : Prop := listed_before a b = true.


(** The entries that [process_pipeline] hands to the report: the first
    five of the ranking. *)
Definition report_entries (ranking : list MatchResult) : list MatchResult :=
  firstn 5 ranking.

(** A ranking entry with a given id and final score, and six of them. *)
Definition entry_with (i : Z) (s : Q) : MatchResult :=
  mkMatch i "" "" s 0 0 [] [] [] 0 [].

Definition six_entries : list MatchResult :=
  [ entry_with 1 10; entry_with 2 60; entry_with 3 30;
    entry_with 4 50; entry_with 5 20; entry_with 6 40 ].

(** ** The required experience ([estimate_required_experience]) *)






(** The order of [sorted] on strings. *)
Definition str_le (a b : string) : Prop := String.leb a b = true.

(** ** File names and whitespace ([slugify], [normalize_space]) *)

(** [[a-zA-Z0-9_-]]. *)
Definition is_slug_char (c : ascii) : bool :=
  (Re.is_digit c || Re.is_alpha c || Ascii.eqb c "_" || Ascii.eqb c "-")%bool.

(** [re.sub(r"[^a-zA-Z0-9_-]+", "-", s)]: every longest run of other
    characters becomes one hyphen. *)
Fixpoint sub_runs (in_run : bool) (s : list ascii) : list ascii :=
  match s with
  | [] => []
  | c :: r =>
      if is_slug_char c then c :: sub_runs false r
      else if in_run then sub_runs true r
      else "-"%char :: sub_runs true r
  end.

(** [s.lstrip(chars)] and [s.rstrip(chars)], the characters given by a
    test. *)
Fixpoint lstrip_by (p : ascii -> bool) (s : list ascii) : list ascii :=
  match s with
  | c :: r => if p c then lstrip_by p r else s
  | [] => []
  end.

Fixpoint rstrip_by (p : ascii -> bool) (s : list ascii) : list ascii :=
  match s with
  | [] => []
  | c :: r =>
      match rstrip_by p r with
      | [] => if p c then [] else [c]
      | r' => c :: r'
      end
  end.

Definition is_hyphen (c : ascii) : bool := Ascii.eqb c "-".

(** [slugify]. *)
Definition slugify (value : string) : string :=
  let replaced :=
    sub_runs false (list_ascii_of_string (Py.lower (strip value))) in
  let stripped := rstrip_by is_hyphen (lstrip_by is_hyphen replaced) in
  match stripped with
  | [] => "file"
  | _ => string_of_list_ascii stripped
  end.

(** [re.sub(r"\s+", " ", s)]. *)
Fixpoint collapse_spaces (in_run : bool) (s : list ascii) : list ascii :=
  match s with
  | [] => []
  | c :: r =>
      if Re.is_space c
      then (if in_run then collapse_spaces true r
            else " "%char :: collapse_spaces true r)
      else c :: collapse_spaces false r
  end.

(** [normalize_space]. *)
Definition normalize_space (text : string) : string :=
  strip (string_of_list_ascii
           (collapse_spaces false (list_ascii_of_string text))).

(** The characters of a slug: lower-case letters, digits, underscore and
    hyphen. *)
Definition is_slug_lower (c : ascii) : bool :=
  (is_slug_char c && Ascii.eqb (Py.lower_ascii c) c)%bool.

(** A text whose blanks are single spaces: every whitespace character is
    a space and follows a character that is not whitespace. *)
Fixpoint single_spaced (after_space : bool) (s : list ascii) : bool :=
  match s with
  | [] => true
  | c :: r =>
      if Re.is_space c
      then (Ascii.eqb c " " && negb after_space && single_spaced true r)%bool
      else single_spaced false r
  end.

(** The first and the last character of a text, if any. *)
Definition first_char (s : list ascii) : option ascii := hd_error s.
Definition last_char (s : list ascii) : option ascii := hd_error (rev s).

(** No character at this end, or one that fails the test. *)
Definition none_or_not (p : ascii -> bool) (o : option ascii) : bool :=
  match o with
  | None => true
  | Some c => negb (p c)
  end.




(** ** Keywords and the requirement profile ([extract_keywords],
    [parse_tender_text]) *)

Definition STOPWORDS : list string :=
  [ "the"; "and"; "for"; "with"; "this"; "that"; "from"; "have"; "will";
    "your"; "into"; "their"; "need"; "must"; "using"; "about"; "able";
    "more"; "plus"; "des"; "les"; "une"; "pour"; "avec"; "dans"; "sur";
    "aux"; "par" ].

(** [[a-zA-Z+#/. -]]. *)
Definition is_keyword_char (c : ascii) : bool :=
  (Re.is_alpha c
   || existsb (Ascii.eqb c) ["+"; "#"; "/"; "."; " "; "-"]%char)%bool.

(** The characters of [token.strip(" .-/")]. *)
Definition is_trim_char (c : ascii) : bool :=
  existsb (Ascii.eqb c) [" "; "."; "-"; "/"]%char.

(** The longest run of characters that pass a test at the head of [s]. *)
Fixpoint take_while (p : ascii -> bool) (s : list ascii) : list ascii :=
  match s with
  | c :: r => if p c then c :: take_while p r else []
  | [] => []
  end.

(** [[a-zA-Z][a-zA-Z+#/. -]{2,}] at a position: the token it matches,
    the longest one. *)
Definition keyword_match (s : list ascii) : option (list ascii) :=
  match s with
  | c :: r =>
      if Re.is_alpha c then
        let run := take_while is_keyword_char r in
        if Nat.leb 2 (List.length run) then Some (c :: run) else None
      else None
  | [] => None
  end.

(** [re.findall] of the token pattern: after a match the search resumes
    at its end. *)
Fixpoint findall_tokens (skip : nat) (s : list ascii) : list (list ascii) :=
  match s with
  | [] => []
  | _ :: r =>
      match skip with
      | S k => findall_tokens k r
      | O =>
          match keyword_match s with
          | Some token => token :: findall_tokens (List.length token - 1) r
          | None => findall_tokens 0 r
          end
      end
  end.

(** The loop of [extract_keywords] over the tokens. *)
Definition cleaned_tokens (text : string) : list string :=
  filter (fun token =>
            (Nat.leb 3 (String.length token) && negb (Py.mem token STOPWORDS))%bool)
    (map (fun token =>
            string_of_list_ascii
              (rstrip_by is_trim_char (lstrip_by is_trim_char token)))
       (findall_tokens 0 (list_ascii_of_string (Py.lower text)))).

(** [Counter(words)]: the words in the order of their first occurrence,
    each with its number of occurrences. *)
Definition counter (words : list string) : list (string * nat) :=
  fold_left
    (fun d w =>
       Dict.set String.eqb w
         (S (match Dict.get String.eqb w d with Some n => n | None => O end)) d)
    words [].

(** The order of [most_common]: the larger count first, words of equal
    count in the order of the counter. *)
Fixpoint insert_common (x : string * nat) (l : list (string * nat))
    : list (string * nat) :=
  match l with
  | [] => [x]
  | y :: r => if Nat.ltb (snd x) (snd y) then y :: insert_common x r
              else x :: l
  end.

Definition most_common (limit : nat) (d : list (string * nat))
    : list (string * nat) :=
  firstn limit (fold_right insert_common [] d).

(** [extract_keywords]. *)
Definition extract_keywords (text : string) (limit : nat) : list string :=
  map fst (most_common limit (counter (cleaned_tokens text))).






(** A keyword as [extract_keywords] keeps it: at least three characters
    and not a stop word. *)
Definition kept_word (w : string) : Prop :=
  (3 <= String.length w)%nat /\ ~ In w STOPWORDS.


Definition sample_tender_payload : TenderPayload :=
  mkTenderPayload "call.txt" "bank/call.txt" "ab12" "parsed/call-ab12.json"
    "Call for tenders" "call for tenders python" ["python"].

(** * Properties *)

(** ** Rounding *)

Section Rounding.










End Rounding.

(** ** Sets as duplicate-free lists *)

Section Sets.

Lemma mem_In (s : string) (l : list string) : Py.mem s l = true <-> In s l.
Proof.
  unfold Py.mem. rewrite existsb_exists. split.
  - intros [x [I E]]. apply String.eqb_eq in E. now subst.
  - intros I. exists s. split; [exact I | apply String.eqb_refl].
Qed.

Lemma mem_set (s : string) (l : list string) : Py.mem s (Py.set l) = Py.mem s l.
Proof.
  apply eq_true_iff_eq. rewrite !mem_In. unfold Py.set. apply nodup_In.
Qed.

Lemma insert_sorted_length (s : string) (l : list string) :
  List.length (Py.insert_sorted s l) = S (List.length l).
Proof.
  induction l as [| x r IH]; simpl; [reflexivity|].
  destruct (String.leb s x); simpl; [reflexivity | now rewrite IH].
Qed.

Lemma sorted_length (l : list string) :
  List.length (Py.sorted l) = List.length l.
Proof.
  induction l as [| x r IH]; [reflexivity|].
  change (Py.sorted (x :: r)) with (Py.insert_sorted x (Py.sorted r)).
  now rewrite insert_sorted_length, IH.
Qed.

Lemma filter_nodup (f : string -> bool) (l : list string) :
  filter f (nodup string_dec l) = nodup string_dec (filter f l).
Proof.
  induction l as [| x r IH]; simpl; [reflexivity|].
  destruct (in_dec string_dec x r) as [I | N].
  - destruct (f x) eqn:F; simpl; [|exact IH].
    destruct (in_dec string_dec x (filter f r)) as [_ | N'].
    + exact IH.
    + exfalso. apply N'. apply filter_In. now split.
  - simpl. destruct (f x) eqn:F; simpl; [|exact IH].
    destruct (in_dec string_dec x (filter f r)) as [I' | _].
    + exfalso. apply N. now apply filter_In in I'.
    + now rewrite IH.
Qed.

(** The size of the intersection computed by the code is the cardinal
    of the intersection of the two collections read as sets. *)
Lemma inter_card (a b : list string) :
  Py.len (Py.sorted (Py.inter (Py.set a) (Py.set b))) = Spec.card_inter a b.
Proof.
  unfold Py.len, Spec.card_inter, Py.len. f_equal.
  rewrite sorted_length. unfold Py.inter, Py.set at 1.
  rewrite filter_nodup.
  rewrite (filter_ext _ (fun s => Py.mem s b)) by (intros s; apply mem_set).
  reflexivity.
Qed.

Lemma inter_card_unsorted (a b : list string) :
  Py.len (Py.inter (Py.set a) (Py.set b)) = Spec.card_inter a b.
Proof.
  rewrite <- inter_card. unfold Py.len. now rewrite sorted_length.
Qed.

Lemma card_inter_set_r (a b : list string) :
  Spec.card_inter a (Py.set b) = Spec.card_inter a b.
Proof.
  unfold Spec.card_inter.
  rewrite (filter_ext _ (fun s => Py.mem s b)) by (intros s; apply mem_set).
  reflexivity.
Qed.


(** The branch on the emptiness of a set, as a test on its cardinal. *)
Lemma overlap_code (a b : list string) (weight flat : Q) :
  match Py.set a with
  | [] => flat
  | _ => (inject_Z (Py.len (Py.inter (Py.set a) (Py.set b)))
          / inject_Z (Py.len (Py.set a)) * weight)%Q
  end = Spec.overlap a b weight flat.
Proof.
  unfold Spec.overlap, Spec.card. rewrite inter_card_unsorted.
  fold (Py.set a). destruct (Py.set a); reflexivity.
Qed.

Lemma overlap_code_sorted (a b : list string) (weight flat : Q) :
  match Py.set a with
  | [] => flat
  | _ => (inject_Z (Py.len (Py.sorted (Py.inter (Py.set a) (Py.set b))))
          / inject_Z (Py.len (Py.set a)) * weight)%Q
  end = Spec.overlap a b weight flat.
Proof.
  rewrite <- overlap_code. unfold Py.len. now rewrite sorted_length.
Qed.

End Sets.

(** ** The scorer *)

Section Scorer.

Lemma education_rank_range (level : string) : 0 <= education_rank level <= 3.
Proof.
  unfold education_rank.
  repeat match goal with |- context [if ?b then _ else _] => destruct b end; lia.
Qed.

Lemma cv_language_set_spec (c : CvJson) :
  cv_language_set c = Py.set (Spec.candidate_languages c).
Proof.
  unfold cv_language_set, Spec.candidate_languages. f_equal.
  induction (cv_languages c) as [| item r IH]; simpl; [reflexivity|].
  destruct (String.eqb (name item) ""); simpl; now rewrite IH.
Qed.

Lemma tender_language_set_spec (t : TenderJson) :
  tender_language_set t = Py.set (Spec.required_languages t).
Proof. reflexivity. Qed.

(** The score of the code, component by component, on the sets of the
    specification; it holds for every pair of profiles. *)
Lemma lexical_score_components (t : TenderJson) (c : CvJson) :
  lexical_score (compute_lexical_score t c)
  = Py.round2
      (Spec.overlap (required_skills t) (technical_skills c) 45 25
       + Spec.overlap (Spec.required_languages t) (Spec.candidate_languages c) 15 8
       + (if experience_level t =? 0 then 8
          else Qmin (inject_Z (cv_experience_years c)
                     / inject_Z (experience_level t)) 1 * 15)
       + Spec.education (education_rank (education_level t))
           (education_rank (cv_education_level c)))%Q.
Proof.
  unfold compute_lexical_score; cbv zeta.
  unfold lexical_score.
  rewrite overlap_code_sorted.
  rewrite tender_language_set_spec, cv_language_set_spec, overlap_code.
  f_equal. f_equal.
  unfold Spec.education.
  pose proof (education_rank_range (education_level t)) as R.
  destruct (education_rank (education_level t) =? 0) eqn:E.
  - apply Z.eqb_eq in E. rewrite E. reflexivity.
  - apply Z.eqb_neq in E.
    replace (0 <? education_rank (education_level t)) with true
      by (symmetry; apply Z.ltb_lt; lia).
    rewrite Z.geb_leb. reflexivity.
Qed.




End Scorer.

(** ** Bounds and monotonicity of the scores *)

Section Bounds.














End Bounds.

Section ScoreClaims.







End ScoreClaims.

(** ** Content identity and dedup *)

Section Dedup.
Variable sha256_hexdigest : list ascii -> string.

Lemma find_app_none {A : Type} (f : A -> bool) (l : list A) (x : A) :
  find f l = None -> find f (l ++ [x]) = if f x then Some x else None.
Proof.
  induction l as [| y r IH]; simpl; [reflexivity|].
  destruct (f y); [discriminate | exact IH].
Qed.

Lemma find_all_false {A : Type} (f : A -> bool) (l : list A) :
  (forall x, In x l -> f x = false) -> find f l = None.
Proof.
  induction l as [| y r IH]; simpl; intros H; [reflexivity|].
  rewrite (H y) by now left. apply IH. intros x I. apply H. now right.
Qed.

Lemma select_new_row (t : TenderTable) (row : TenderRow) :
  table_ok t -> id row = seq t + 1 ->
  select_by_id (seq t + 1) {| rows := rows t ++ [row]; seq := seq t + 1 |}
  = Some row.
Proof.
  intros Ok Id. unfold select_by_id. simpl rows.
  rewrite find_app_none.
  - rewrite Id, Z.eqb_refl. reflexivity.
  - apply find_all_false. intros r I. unfold table_ok in Ok.
    rewrite Forall_forall in Ok. apply Ok in I. apply Z.eqb_neq. lia.
Qed.

(** C6. Ingesting a tender file whose fingerprint is already in the
    store returns the stored record as it is and leaves the table as it
    was: no row is inserted and no field is rewritten. *)
Theorem reingest_tender_is_noop
    (now path_name path json_path_ search_text_ : string)
    (file_bytes : list ascii) (tender_json : TenderJson)
    (t : TenderTable) (existing : TenderRow) :
  select_by_hash (file_sha256 sha256_hexdigest file_bytes) t = Some existing ->
  ingest_tender_row sha256_hexdigest now path_name path json_path_
    search_text_ file_bytes tender_json t
  = (Some existing, t).
Proof.
  intros Found. unfold ingest_tender_row, insert_tender_document.
  simpl p_content_hash. rewrite Found. reflexivity.
Qed.

(** X7. Two files with the same bytes, ingested one after the other: the
    second ingestion returns the row of the first and changes nothing,
    whatever its name, its path and its enrichment. *)
Lemma ingest_same_bytes_twice
    (now1 name1 path1 json1 text1 now2 name2 path2 json2 text2 : string)
    (file_bytes : list ascii) (tender1 tender2 : TenderJson) (t : TenderTable) :
  table_ok t ->
  let first := ingest_tender_row sha256_hexdigest now1 name1 path1 json1 text1
                 file_bytes tender1 t in
  fst first <> None
  /\ ingest_tender_row sha256_hexdigest now2 name2 path2 json2 text2
       file_bytes tender2 (snd first) = first.
Proof.
  intros Ok first. subst first.
  unfold ingest_tender_row, insert_tender_document. simpl p_content_hash.
  destruct (select_by_hash (file_sha256 sha256_hexdigest file_bytes) t)
    as [existing |] eqn:Found.
  - simpl. rewrite Found. split; [discriminate | reflexivity].
  - cbv zeta. rewrite select_new_row by (exact Ok || reflexivity).
    simpl fst. simpl snd. split; [discriminate|].
    unfold select_by_hash at 1. simpl rows. unfold select_by_hash in Found.
    rewrite find_app_none by exact Found.
    simpl content_hash. rewrite String.eqb_refl. reflexivity.
Qed.

End Dedup.

Example ingest_identical_files :
  let first := ingest_tender_row constant_digest "2024-01-01T00:00:00"
                 "call.txt" "bank/call.txt" "parsed/call-ab12.json"
                 "call for tenders python" [] scenario_tender
                 empty_tender_table in
  ingest_tender_row constant_digest "2024-02-02T00:00:00" "copy.txt"
    "uploads/copy.txt" "parsed/copy-ab12.json" "other text" [] scenario_tender
    (snd first) = first
  /\ List.length (rows (snd first)) = 1%nat.
Proof. split; reflexivity. Qed.

Lemma reingest_tender_is_noop_witness :
  ingest_tender_row constant_digest "2024-02-02T00:00:00" "copy.txt"
    "uploads/copy.txt" "parsed/copy-ab12.json" "other text" [] scenario_tender
    one_tender_table
  = (Some stored_tender, one_tender_table).
Proof.
  apply (reingest_tender_is_noop constant_digest). reflexivity.
Defined.

(** ** The ranking engine *)

Section SortDesc.

Lemma Qltb_lt (a b : Q) : Qltb a b = true <-> (a < b)%Q.
Proof.
  unfold Qltb. rewrite negb_true_iff. split.
  - intros F. destruct (Qlt_le_dec a b) as [L | L]; [exact L|].
    apply Qle_bool_iff in L. congruence.
  - intros L. destruct (Qle_bool b a) eqn:E; [|reflexivity].
    apply Qle_bool_iff in E. lra.
Qed.

Lemma Qltb_ge (a b : Q) : Qltb a b = false <-> (b <= a)%Q.
Proof.
  unfold Qltb. rewrite negb_false_iff. apply Qle_bool_iff.
Qed.

Lemma insert_desc_perm (x : MatchResult) (l : list MatchResult) :
  Permutation (x :: l) (insert_desc x l).
Proof.
  induction l as [| y r IH]; simpl; [reflexivity|].
  destruct (Qltb (score x) (score y)); [|reflexivity].
  rewrite perm_swap. now apply perm_skip.
Qed.


Lemma insert_desc_sorted (x : MatchResult) (l : list MatchResult) :
  descending l -> descending (insert_desc x l).
Proof.
  unfold descending. induction l as [| y r IH]; simpl; intros S.
  - constructor; constructor.
  - inversion S as [| ? ? Sr Fr]; subst.
    destruct (Qltb (score x) (score y)) eqn:C.
    + apply Qltb_lt in C. constructor; [now apply IH|].
      rewrite <- insert_desc_perm. constructor; [lra | exact Fr].
    + apply Qltb_ge in C. constructor; [exact S|].
      constructor; [exact C|].
      rewrite Forall_forall in *. intros z I. specialize (Fr z I). lra.
Qed.

Lemma sort_desc_sorted (l : list MatchResult) : descending (sort_desc l).
Proof.
  induction l as [| x r IH]; simpl; [constructor | now apply insert_desc_sorted].
Qed.



End SortDesc.

Section Dictionaries.
Context {V : Type}.
Variable key : V -> Z.




End Dictionaries.

Section RankingClaims.
Variable read_cv_json : string -> option CvJson.
Variable semantic_search : string -> Z -> QueryResult.
Variable notes : TenderJson -> CvJson -> Lexical -> Q -> Q -> list string.
Variable SEARCH_TOP_K : Z.




End RankingClaims.


(** ** The catalog matcher *)

Section Detection.

Lemma set_In (s : string) (l : list string) : In s (Py.set l) <-> In s l.
Proof. unfold Py.set. apply nodup_In. Qed.

Lemma insert_sorted_In (s x : string) (l : list string) :
  In s (Py.insert_sorted x l) <-> s = x \/ In s l.
Proof.
  induction l as [| y r IH]; simpl; [intuition|].
  destruct (String.leb x y); simpl; [intuition|].
  rewrite IH. intuition.
Qed.

Lemma sorted_In (s : string) (l : list string) : In s (Py.sorted l) <-> In s l.
Proof.
  induction l as [| x r IH]; [reflexivity|].
  change (Py.sorted (x :: r)) with (Py.insert_sorted x (Py.sorted r)).
  rewrite insert_sorted_In, IH. simpl. intuition.
Qed.







(** C4. Detection is not word-boundary-safe on all three vocabularies:
    the skills are searched between word boundaries, the spoken
    languages and the education levels by plain containment. In
    "Born in Germany" the alias "german" occurs only inside a longer
    word, and German is detected; in "a masterpiece" the alias "master"
    occurs only inside a longer word, and the level master is
    detected. *)
Theorem detection_inside_longer_word :
  Re.search_bounded "german" (Py.lower "Born in Germany") = false
  /\ detect_languages "Born in Germany"
     = [{| name := "German"; proficiency := None |}]
  /\ Re.search_bounded "master" (Py.lower "a masterpiece") = false
  /\ detect_education_level "a masterpiece" = "master"
  /\ detect_skills "a javascript course" = ["javascript"].
Proof. repeat split; vm_compute; reflexivity. Qed.

End Detection.

(** ** The enrichment merge *)

Section Merge.


(** X22. An experience value on which [int] raises [TypeError] or
    [ValueError] is dropped and the heuristic profile is kept. *)
Lemma merge_experience_caught (cv_json : CvJson) (v : PyValue) :
  py_int v = inr TypeError \/ py_int v = inr ValueError ->
  merge_enrichment cv_json (Some (experience_only v)) = inl cv_json.
Proof.
  intros E. unfold merge_enrichment, experience_only. simpl.
  destruct v; simpl in *;
    try (destruct E as [E | E]; discriminate E);
    try (destruct cv_json; reflexivity).
  destruct E as [E | E]; rewrite E; destruct cv_json; reflexivity.
Qed.

(** C7. The merge does not drop every experience value that fails to
    parse as an integer: [int] raises [OverflowError] on an infinite
    float (what [json.loads] makes of [1e999] or [Infinity]), the handler
    catches [TypeError] and [ValueError] only, and the ingestion ends
    with the exception instead of keeping the heuristic value. *)
Theorem merge_experience_infinite (cv_json : CvJson) (negative : bool) :
  py_int (PyInf negative) = inr OverflowError
  /\ merge_enrichment cv_json (Some (experience_only (PyInf negative)))
     = inr OverflowError.
Proof. split; reflexivity. Qed.

End Merge.

(** ** Experience estimation *)

Section Experience.

Lemma digit_range (c : ascii) :
  Re.is_digit c = true -> 0 <= digit_value c <= 9.
Proof.
  unfold Re.is_digit, digit_value. rewrite andb_true_iff, !Nat.leb_le. lia.
Qed.







Lemma insert_Z_perm (x : Z) (l : list Z) : Permutation (x :: l) (insert_Z x l).
Proof.
  induction l as [| y r IH]; simpl; [reflexivity|].
  destruct (x <=? y); [reflexivity|].
  rewrite perm_swap. now apply perm_skip.
Qed.

Lemma sorted_Z_perm (l : list Z) : Permutation l (sorted_Z l).
Proof.
  induction l as [| x r IH]; simpl; [reflexivity|].
  rewrite <- insert_Z_perm. now apply perm_skip.
Qed.







End Experience.

(** ** The candidate table *)

Section CandidateTable.

Lemma find_by_key {A : Type} (key : A -> Z) (l : list A) (x : A) :
  NoDup (map key l) -> In x l -> find (fun r => key r =? key x) l = Some x.
Proof.
  induction l as [| y r IH]; simpl; intros N I; [contradiction|].
  inversion N as [| ? ? Ny Nr]; subst.
  destruct I as [E | I].
  - subst y. now rewrite Z.eqb_refl.
  - destruct (key y =? key x) eqn:K; [| now apply IH].
    apply Z.eqb_eq in K. exfalso. apply Ny. rewrite K. now apply in_map.
Qed.

Lemma find_map_key {A : Type} (p : A -> bool) (f : A -> A) (l : list A) :
  (forall r, p (f r) = p r) -> find p (map f l) = option_map f (find p l).
Proof.
  intros H. induction l as [| y r IH]; simpl; [reflexivity|].
  rewrite H. destruct (p y); [reflexivity | exact IH].
Qed.

Lemma update_keeps (now : string) (payload : CvPayload) (i : Z) (r : CvRow) :
  let r' := if cv_id r =? i then updated_cv_row now payload r else r in
  cv_id r' = cv_id r /\ cv_content_hash r' = cv_content_hash r
  /\ cv_created_at r' = cv_created_at r.
Proof. simpl. destruct (cv_id r =? i); repeat split; reflexivity. Qed.

Lemma update_columns (now : string) (payload : CvPayload) (i : Z)
    (l : list CvRow) :
  let l' := map (fun r => if cv_id r =? i then updated_cv_row now payload r
                          else r) l in
  map cv_id l' = map cv_id l
  /\ map cv_content_hash l' = map cv_content_hash l
  /\ map cv_created_at l' = map cv_created_at l.
Proof.
  simpl. rewrite !map_map. repeat split; apply map_ext; intros r;
    destruct (cv_id r =? i); reflexivity.
Qed.

(** What [upsert_cv_document] does on a fingerprint that is stored. *)
Lemma upsert_stored (now : string) (payload : CvPayload) (t : CvTable)
    (existing : CvRow) :
  cv_table_ok t ->
  select_cv_by_hash (q_content_hash payload) t = Some existing ->
  upsert_cv_document now payload t
  = (Some (updated_cv_row now payload existing),
     {| cv_rows :=
          map (fun r => if cv_id r =? cv_id existing
                        then updated_cv_row now payload r else r) (cv_rows t);
        cv_seq := cv_seq t |}).
Proof.
  intros [Ni _] F. unfold upsert_cv_document. rewrite F. cbv zeta.
  f_equal. unfold select_cv_by_id. simpl cv_rows.
  rewrite find_map_key.
  - apply find_some in F. destruct F as [I _].
    rewrite (find_by_key cv_id _ existing Ni I). simpl.
    now rewrite Z.eqb_refl.
  - intros r. destruct (cv_id r =? cv_id existing) eqn:E; simpl; exact E.
Qed.

(** What [upsert_cv_document] does on a fingerprint that is new. *)
Lemma upsert_new (now : string) (payload : CvPayload) (t : CvTable) :
  select_cv_by_hash (q_content_hash payload) t = None ->
  upsert_cv_document now payload t
  = (Some (inserted_cv_row now payload (cv_seq t + 1)),
     {| cv_rows := cv_rows t ++ [inserted_cv_row now payload (cv_seq t + 1)];
        cv_seq := cv_seq t + 1 |}).
Proof.
  intros F. unfold upsert_cv_document. rewrite F. cbv zeta. f_equal.
  unfold select_cv_by_hash in *. simpl cv_rows.
  rewrite find_app_none by exact F. simpl. now rewrite String.eqb_refl.
Qed.

Lemma upsert_ok (now : string) (payload : CvPayload) (t : CvTable) :
  cv_table_ok t -> cv_table_ok (snd (upsert_cv_document now payload t)).
Proof.
  intros Ok. pose proof Ok as [Ni [Nh B]].
  destruct (select_cv_by_hash (q_content_hash payload) t) as [existing |] eqn:F.
  - rewrite (upsert_stored now payload t existing Ok F). simpl snd.
    destruct (update_columns now payload (cv_id existing) (cv_rows t))
      as [Ei [Eh _]].
    unfold cv_table_ok. simpl cv_rows. simpl cv_seq.
    rewrite Ei, Eh. split; [exact Ni | split; [exact Nh|]].
    rewrite Forall_forall in *. intros r I. apply in_map_iff in I.
    destruct I as [r0 [E I]]. subst r. specialize (B r0 I).
    destruct (cv_id r0 =? cv_id existing); exact B.
  - rewrite (upsert_new now payload t F). simpl snd.
    unfold cv_table_ok. simpl cv_rows. simpl cv_seq.
    rewrite !map_app. simpl map. split; [| split].
    + apply Permutation_NoDup with (l := (cv_seq t + 1) :: map cv_id (cv_rows t)).
      * apply Permutation_cons_append.
      * constructor; [| exact Ni]. intros I. apply in_map_iff in I.
        destruct I as [r [E I]]. rewrite Forall_forall in B.
        specialize (B r I). lia.
    + apply Permutation_NoDup
        with (l := q_content_hash payload :: map cv_content_hash (cv_rows t)).
      * apply Permutation_cons_append.
      * constructor; [| exact Nh]. intros I. apply in_map_iff in I.
        destruct I as [r [E I]].
        apply (find_none _ _ F) in I. rewrite E in I.
        now rewrite String.eqb_refl in I.
    + apply Forall_app. split.
      * rewrite Forall_forall in *. intros r I. specialize (B r I). lia.
      * constructor; [simpl; lia | constructor].
Qed.

End CandidateTable.

Section CandidateTableProperties.

Lemma same_key_same_row {A : Type} (key : A -> Z) (l : list A) (x y : A) :
  NoDup (map key l) -> In x l -> In y l -> key x = key y -> x = y.
Proof.
  intros N Ix Iy E.
  pose proof (find_by_key key l x N Ix) as Fx.
  pose proof (find_by_key key l y N Iy) as Fy.
  rewrite E in Fx. congruence.
Qed.




(** X2. An upsert leaves every row with another fingerprint as it
    was. *)
Theorem upsert_frame (now : string) (payload : CvPayload) (t : CvTable)
    (r : CvRow) :
  cv_table_ok t ->
  In r (cv_rows t) ->
  cv_content_hash r <> q_content_hash payload ->
  In r (cv_rows (snd (upsert_cv_document now payload t))).
Proof.
  intros Ok I D. pose proof Ok as [Ni _].
  destruct (select_cv_by_hash (q_content_hash payload) t) as [existing |] eqn:F.
  - rewrite (upsert_stored now payload t existing Ok F). simpl.
    apply in_map_iff. exists r. split; [| exact I].
    destruct (cv_id r =? cv_id existing) eqn:E; [| reflexivity].
    apply Z.eqb_eq in E. apply find_some in F. destruct F as [Ie H].
    apply String.eqb_eq in H.
    assert (r = existing) by (apply (same_key_same_row cv_id (cv_rows t)); assumption).
    subst r. contradiction.
  - rewrite (upsert_new now payload t F). simpl.
    apply in_or_app. now left.
Qed.

Lemma upsert_frame_witness :
  In (inserted_cv_row "2024-01-01T10:00:00" sample_cv_payload 1)
    (cv_rows
       (snd (upsert_cv_document "2024-01-03T10:00:00"
               (mkCvPayload "b.txt" "bank/b.txt" "h2" "parsed/b-h2.json" "B"
                  "" "" 0 "" "b")
               (snd (upsert_cv_document "2024-01-01T10:00:00"
                       sample_cv_payload empty_cv_table))))).
Proof.
  apply upsert_frame.
  - apply upsert_ok. repeat split; constructor.
  - simpl. now left.
  - simpl. discriminate.
Defined.

Lemma upsert_hashes (now : string) (payload : CvPayload) (t : CvTable)
    (h : string) :
  cv_table_ok t ->
  In h (map cv_content_hash (cv_rows (snd (upsert_cv_document now payload t))))
  <-> In h (map cv_content_hash (cv_rows t)) \/ h = q_content_hash payload.
Proof.
  intros Ok.
  destruct (select_cv_by_hash (q_content_hash payload) t) as [existing |] eqn:F.
  - rewrite (upsert_stored now payload t existing Ok F). simpl snd.
    simpl cv_rows.
    destruct (update_columns now payload (cv_id existing) (cv_rows t))
      as [_ [Eh _]].
    rewrite Eh. split; [now left|]. intros [I | E]; [exact I|]. subst h.
    apply find_some in F. destruct F as [I H]. apply String.eqb_eq in H.
    rewrite <- H. now apply in_map.
  - rewrite (upsert_new now payload t F). simpl snd. simpl cv_rows.
    rewrite map_app, in_app_iff. simpl. intuition.
Qed.

Lemma upsert_all_ok (calls : list (string * CvPayload)) (t : CvTable) :
  cv_table_ok t ->
  cv_table_ok (upsert_all calls t)
  /\ forall h, In h (map cv_content_hash (cv_rows (upsert_all calls t)))
               <-> In h (map cv_content_hash (cv_rows t))
                   \/ In h (map (fun call => q_content_hash (snd call)) calls).
Proof.
  revert t. induction calls as [| [now payload] calls IH]; intros t Ok.
  - simpl. split; [exact Ok | intuition].
  - simpl upsert_all. unfold upsert_all in *. simpl fold_left.
    destruct (IH _ (upsert_ok now payload t Ok)) as [Ok' H].
    split; [exact Ok'|]. intros h. rewrite H.
    rewrite (upsert_hashes now payload t h Ok). simpl. intuition.
Qed.

(** X3. However many times the files are ingested, and in whatever
    order, the table built from nothing keeps distinct ids and distinct
    fingerprints, and holds one row for each distinct fingerprint. *)
Theorem upsert_all_one_row_per_fingerprint (calls : list (string * CvPayload)) :
  cv_table_ok (upsert_all calls empty_cv_table)
  /\ count_cv_documents (upsert_all calls empty_cv_table)
     = Py.len (nodup string_dec
                 (map (fun call => q_content_hash (snd call)) calls)).
Proof.
  assert (Ok0 : cv_table_ok empty_cv_table) by (repeat split; constructor).
  destruct (upsert_all_ok calls empty_cv_table Ok0) as [Ok H].
  split; [exact Ok|].
  unfold count_cv_documents, Py.len. f_equal.
  rewrite <- (length_map cv_content_hash). apply Permutation_length.
  apply NoDup_Permutation.
  - apply Ok.
  - apply NoDup_nodup.
  - intros h. rewrite H, nodup_In. simpl. intuition.
Qed.

End CandidateTableProperties.

Section Listing.

Lemma listed_before_total (a b : CvRow) :
  listed_before a b = false -> listed_before b a = true.
Proof.
  unfold listed_before.
  pose proof (String.compare_antisym (cv_updated_at a) (cv_updated_at b)) as A.
  destruct (String.compare (cv_updated_at b) (cv_updated_at a));
    rewrite A; simpl.
  - intros H. apply Z.leb_gt in H. apply Z.leb_le. lia.
  - discriminate.
  - reflexivity.
Qed.

Lemma insert_listed_perm (x : CvRow) (l : list CvRow) :
  Permutation (x :: l) (insert_listed x l).
Proof.
  induction l as [| y r IH]; simpl; [reflexivity|].
  destruct (listed_before x y); [reflexivity|].
  rewrite perm_swap. now apply perm_skip.
Qed.

Lemma list_cv_documents_perm (t : CvTable) :
  Permutation (cv_rows t) (list_cv_documents t).
Proof.
  unfold list_cv_documents.
  induction (cv_rows t) as [| x r IH]; simpl; [reflexivity|].
  rewrite <- insert_listed_perm. now apply perm_skip.
Qed.

Lemma insert_listed_sorted (x : CvRow) (l : list CvRow) :
  Sorted listed l -> Sorted listed (insert_listed x l).
Proof.
  induction l as [| y r IH]; simpl; intros S.
  - constructor; constructor.
  - destruct (listed_before x y) eqn:B.
    + constructor; [exact S | constructor; exact B].
    + inversion S as [| ? ? Sr Hr]; subst.
      constructor; [now apply IH|].
      destruct r as [| z r']; simpl.
      * constructor. now apply listed_before_total.
      * destruct (listed_before x z).
        -- constructor. now apply listed_before_total.
        -- inversion Hr; subst. now constructor.
Qed.

(** X4. The listing of the candidates holds every stored row once, in
    the order of the later update first and, at equal times, the larger
    id first; its length is the count of the table. *)
Theorem list_cv_documents_sorted (t : CvTable) :
  Permutation (cv_rows t) (list_cv_documents t)
  /\ Sorted listed (list_cv_documents t)
  /\ Py.len (list_cv_documents t) = count_cv_documents t.
Proof.
  split; [apply list_cv_documents_perm | split].
  - unfold list_cv_documents.
    induction (cv_rows t) as [| x r IH]; simpl;
      [constructor | now apply insert_listed_sorted].
  - unfold count_cv_documents, Py.len. f_equal. symmetry.
    apply Permutation_length, list_cv_documents_perm.
Qed.

End Listing.

Section StoredRanking.
Variable read_cv_json : string -> option CvJson.
Variable semantic_search : string -> Z -> QueryResult.
Variable notes : TenderJson -> CvJson -> Lexical -> Q -> Q -> list string.
Variable SEARCH_TOP_K : Z.




End StoredRanking.

Section MatchResults.

Lemma insert_results_rows (now : string) (run : Z) (results : list MatchResult)
    (t : ResultTable) :
  let t' := fold_left (insert_result now run) results t in
  exists added,
    result_rows t' = result_rows t ++ added
    /\ map stored_fields added = map entry_fields results
    /\ Forall (fun r => run_id r = run) added.
Proof.
  revert t. induction results as [| m results IH]; intros t; simpl.
  - exists []. rewrite app_nil_r. repeat split; constructor.
  - destruct (IH (insert_result now run t m)) as [added [E [F R]]].
    eexists (_ :: added). rewrite E. simpl result_rows.
    rewrite <- app_assoc. split; [reflexivity|]. split.
    + simpl. f_equal. exact F.
    + constructor; [reflexivity | exact R].
Qed.

Lemma deleted_run_is_gone (run : Z) (l : list ResultRow) :
  filter (fun r => run_id r =? run)
    (filter (fun r => negb (run_id r =? run)) l) = [].
Proof.
  induction l as [| a l IH]; simpl; [reflexivity|].
  destruct (run_id a =? run) eqn:K; simpl; [exact IH|].
  rewrite K. exact IH.
Qed.

Lemma other_run_is_kept (run other : Z) (l : list ResultRow) :
  other <> run ->
  filter (fun r => run_id r =? other)
    (filter (fun r => negb (run_id r =? run)) l)
  = filter (fun r => run_id r =? other) l.
Proof.
  intros N. induction l as [| a l IH]; simpl; [reflexivity|].
  destruct (run_id a =? run) eqn:K; simpl.
  - apply Z.eqb_eq in K.
    replace (run_id a =? other) with false
      by (symmetry; apply Z.eqb_neq; congruence).
    exact IH.
  - destruct (run_id a =? other); [f_equal|]; exact IH.
Qed.

Lemma added_rows_of_run (run k : Z) (added : list ResultRow) :
  Forall (fun r => run_id r = run) added ->
  filter (fun r => run_id r =? k) added = if k =? run then added else [].
Proof.
  induction 1 as [| a added Ra _ IH]; simpl.
  - now destruct (k =? run).
  - rewrite IH, Ra, (Z.eqb_sym run k). destruct (k =? run); reflexivity.
Qed.

(** X6. Storing the results of a run replaces what the table held for
    that run by the given entries, in their order, and leaves the results
    of every other run as they were. *)
Theorem store_match_results_replaces (now : string) (run : Z)
    (results : list MatchResult) (t : ResultTable) :
  map stored_fields (results_of_run run (store_match_results now run results t))
  = map entry_fields results
  /\ forall other, other <> run ->
       results_of_run other (store_match_results now run results t)
       = results_of_run other t.
Proof.
  unfold store_match_results.
  destruct (insert_results_rows now run results
              {| result_rows :=
                   filter (fun r => negb (run_id r =? run)) (result_rows t);
                 result_seq := result_seq t |}) as [added [E [F R]]].
  simpl result_rows in E. unfold results_of_run. rewrite E. split.
  - rewrite filter_app, (added_rows_of_run run run added R), Z.eqb_refl.
    rewrite deleted_run_is_gone. exact F.
  - intros other N.
    rewrite filter_app, (added_rows_of_run run other added R).
    replace (other =? run) with false by (symmetry; now apply Z.eqb_neq).
    rewrite app_nil_r. now apply other_run_is_kept.
Qed.

End MatchResults.


Lemma ingest_same_bytes_twice_witness :
  ingest_tender_row constant_digest "2024-02-02T00:00:00" "copy.txt"
    "uploads/copy.txt" "parsed/copy-ab12.json" "other text" [] scenario_tender
    (snd (ingest_tender_row constant_digest "2024-01-01T00:00:00"
            "call.txt" "bank/call.txt" "parsed/call-ab12.json"
            "call for tenders python" [] scenario_tender empty_tender_table))
  = ingest_tender_row constant_digest "2024-01-01T00:00:00"
      "call.txt" "bank/call.txt" "parsed/call-ab12.json"
      "call for tenders python" [] scenario_tender empty_tender_table.
Proof.
  apply (ingest_same_bytes_twice constant_digest). constructor.
Defined.

(** ** Further properties of the scorer *)

Section ScorerProperties.

Lemma insert_sorted_perm (x : string) (l : list string) :
  Permutation (x :: l) (Py.insert_sorted x l).
Proof.
  induction l as [| y r IH]; simpl; [reflexivity|].
  destruct (String.leb x y); [reflexivity|].
  rewrite perm_swap. now apply perm_skip.
Qed.

Lemma sorted_perm (l : list string) : Permutation l (Py.sorted l).
Proof.
  induction l as [| x r IH]; [reflexivity|].
  change (Py.sorted (x :: r)) with (Py.insert_sorted x (Py.sorted r)).
  rewrite <- insert_sorted_perm. now apply perm_skip.
Qed.

Lemma filter_partition {A : Type} (f : A -> bool) (l : list A) :
  Permutation (filter f l ++ filter (fun x => negb (f x)) l) l.
Proof.
  induction l as [| x r IH]; simpl; [reflexivity|].
  destruct (f x); simpl.
  - now apply perm_skip.
  - rewrite <- Permutation_middle. now apply perm_skip.
Qed.

(** X8. The matched and the missing skills of a score split the distinct
    required skills: a required skill is matched when the candidate has
    it and missing when not, none is in both lists, and the two lengths
    add up to the number of distinct required skills. *)
Theorem matched_missing_partition (t : TenderJson) (c : CvJson) :
  let lexical := compute_lexical_score t c in
  Permutation (matched_skills lexical ++ missing_skills lexical)
    (Py.set (required_skills t))
  /\ (forall s, In s (matched_skills lexical)
                <-> In s (required_skills t) /\ In s (technical_skills c))
  /\ (forall s, In s (missing_skills lexical)
                <-> In s (required_skills t) /\ ~ In s (technical_skills c))
  /\ Py.len (matched_skills lexical) + Py.len (missing_skills lexical)
     = Spec.card (required_skills t).
Proof.
  unfold compute_lexical_score; cbv zeta.
  simpl matched_skills. simpl missing_skills.
  assert (P : Permutation
                (Py.sorted (Py.inter (Py.set (required_skills t))
                              (Py.set (technical_skills c)))
                 ++ Py.sorted (Py.diff (Py.set (required_skills t))
                                 (Py.set (technical_skills c))))
                (Py.set (required_skills t))).
  { rewrite <- !sorted_perm. apply filter_partition. }
  split; [exact P | split; [| split]].
  - intros s. rewrite sorted_In. unfold Py.inter.
    rewrite filter_In, set_In, mem_In, set_In. reflexivity.
  - intros s. rewrite sorted_In. unfold Py.diff.
    rewrite filter_In, set_In, negb_true_iff.
    rewrite <- not_true_iff_false, mem_In, set_In. reflexivity.
  - apply Permutation_length in P. rewrite length_app in P.
    unfold Spec.card, Py.len. fold (Py.set (required_skills t)). lia.
Qed.

Lemma card_inter_same_members (a b b' : list string) :
  (forall s, In s b <-> In s b') ->
  Spec.card_inter a b = Spec.card_inter a b'.
Proof.
  intros H. unfold Spec.card_inter.
  rewrite (filter_ext (fun s => Py.mem s b) (fun s => Py.mem s b')).
  - reflexivity.
  - intros s. apply eq_true_iff_eq. rewrite !mem_In. apply H.
Qed.

(** X9. The lexical score depends on the candidate's skills as a set:
    two lists of skills with the same members, in any order and with any
    repetitions, give the same score. *)
Theorem lexical_score_same_skill_set (t : TenderJson) (c : CvJson)
    (skills' : list string) :
  (forall s, In s (technical_skills c) <-> In s skills') ->
  lexical_score (compute_lexical_score t (with_technical_skills c skills'))
  = lexical_score (compute_lexical_score t c).
Proof.
  intros H. rewrite !lexical_score_components.
  change (Spec.candidate_languages (with_technical_skills c skills'))
    with (Spec.candidate_languages c).
  simpl cv_experience_years. simpl cv_education_level. simpl technical_skills.
  assert (O : Spec.overlap (required_skills t) skills' 45 25
              = Spec.overlap (required_skills t) (technical_skills c) 45 25).
  { unfold Spec.overlap.
    rewrite (card_inter_same_members (required_skills t) skills'
               (technical_skills c)); [reflexivity|].
    intros s. symmetry. apply H. }
  rewrite O. reflexivity.
Qed.

Lemma lexical_score_same_skill_set_witness :
  lexical_score
    (compute_lexical_score scenario_tender
       (with_technical_skills scenario_cv ["python"; "python"]))
  = lexical_score (compute_lexical_score scenario_tender scenario_cv).
Proof.
  apply lexical_score_same_skill_set. intros s. simpl. intuition.
Defined.




End ScorerProperties.

(** ** The similarity hits and the report *)

Section Hits.

Lemma dict_get_set_same {V : Type} (k : Z) (v : V) (d : list (Z * V)) :
  Dict.get Z.eqb k (Dict.set Z.eqb k v d) = Some v.
Proof.
  induction d as [| [k' v'] r IH]; simpl.
  - now rewrite Z.eqb_refl.
  - destruct (k' =? k) eqn:E; simpl; [now rewrite Z.eqb_refl|].
    rewrite E. exact IH.
Qed.

Lemma dict_get_set_other {V : Type} (k k' : Z) (v : V) (d : list (Z * V)) :
  k' <> k ->
  Dict.get Z.eqb k' (Dict.set Z.eqb k v d) = Dict.get Z.eqb k' d.
Proof.
  intros N. induction d as [| [k0 v0] r IH]; simpl.
  - replace (k =? k') with false by (symmetry; apply Z.eqb_neq; congruence).
    reflexivity.
  - destruct (k0 =? k) eqn:E; simpl.
    + apply Z.eqb_eq in E. subst k0.
      replace (k =? k') with false by (symmetry; apply Z.eqb_neq; congruence).
      reflexivity.
    + destruct (k0 =? k'); [reflexivity | exact IH].
Qed.

Lemma hits_absent (idx : nat) (hit_ids : list Z) (dists : list Q)
    (hits : list (Z * option Q)) (k : Z) :
  ~ In k hit_ids ->
  Dict.get Z.eqb k (semantic_hits_from idx hit_ids dists hits)
  = Dict.get Z.eqb k hits.
Proof.
  revert idx hits. induction hit_ids as [| h r IH]; intros idx hits N; simpl.
  - reflexivity.
  - rewrite IH by (intros I; apply N; now right).
    apply dict_get_set_other. intros E. apply N. now left.
Qed.

Lemma hits_present (idx i : nat) (hit_ids : list Z) (dists : list Q)
    (hits : list (Z * option Q)) (k : Z) :
  NoDup hit_ids -> nth_error hit_ids i = Some k ->
  Dict.get Z.eqb k (semantic_hits_from idx hit_ids dists hits)
  = Some (nth_error dists (idx + i)).
Proof.
  revert idx i hits. induction hit_ids as [| h r IH]; intros idx i hits N E.
  - destruct i; discriminate E.
  - inversion N as [| ? ? Nh Nr]; subst. simpl. destruct i as [| i].
    + injection E as E. subst h.
      rewrite hits_absent by exact Nh.
      rewrite dict_get_set_same. now rewrite Nat.add_0_r.
    + simpl in E. rewrite (IH (S idx) i _ Nr E).
      now rewrite Nat.add_succ_r.
Qed.

(** X12. When the index answers with distinct ids, the candidate at
    position [i] of the answer is given the distance at position [i] (none
    when the distances are fewer), and a candidate that the answer does
    not name gets no distance and so the semantic score 0. *)
Theorem semantic_hits_lookup (query : QueryResult) :
  NoDup (ids query) ->
  (forall i k, nth_error (ids query) i = Some k ->
     hit_distance (semantic_hits query) k = nth_error (distances query) i)
  /\ (forall k, ~ In k (ids query) ->
        hit_distance (semantic_hits query) k = None
        /\ semantic_distance_to_score (hit_distance (semantic_hits query) k)
           = 0%Q).
Proof.
  intros N. split.
  - intros i k E. unfold hit_distance, semantic_hits.
    now rewrite (hits_present 0 i _ _ _ k N E).
  - intros k A. unfold hit_distance, semantic_hits.
    rewrite hits_absent by exact A. simpl. split; reflexivity.
Qed.

Lemma semantic_hits_lookup_witness :
  hit_distance (semantic_hits (scenario_index "python sql" 10)) 1
  = nth_error (distances (scenario_index "python sql" 10)) 0.
Proof.
  apply (semantic_hits_lookup (scenario_index "python sql" 10)).
  - repeat constructor. simpl. intuition.
  - reflexivity.
Defined.

Lemma sorted_app_order {A : Type} (R : A -> A -> Prop) (a b : list A)
    (x y : A) :
  StronglySorted R (a ++ b) -> In x a -> In y b -> R x y.
Proof.
  induction a as [| z a IH]; simpl; intros S Ix Iy; [contradiction|].
  inversion S as [| ? ? Sr F]; subst. destruct Ix as [E | Ix].
  - subst z. rewrite Forall_forall in F. apply F.
    apply in_or_app. now right.
  - now apply IH.
Qed.

(** X13. The entries handed to the report are the best of the ranking:
    no entry left out has a higher final score than an entry kept. *)
Theorem report_entries_are_best (ms : list MatchResult) (m m' : MatchResult) :
  In m (report_entries (sort_desc ms)) ->
  In m' (skipn 5 (sort_desc ms)) ->
  (score m' <= score m)%Q.
Proof.
  intros I I'. unfold report_entries in I.
  pose proof (sort_desc_sorted ms) as S. unfold descending in S.
  rewrite <- (firstn_skipn 5 (sort_desc ms)) in S.
  exact (sorted_app_order _ _ _ m m' S I I').
Qed.

End Hits.

Lemma report_entries_are_best_witness :
  (score (entry_with 1 10) <= score (entry_with 5 20))%Q.
Proof.
  apply (report_entries_are_best six_entries).
  - vm_compute. do 4 right. left. reflexivity.
  - vm_compute. left. reflexivity.
Defined.

(** ** Further properties of the experience estimates *)

Section ExperienceBounds.

Lemma digits_value_nonneg (ds : list ascii) :
  Forall (fun c => Re.is_digit c = true) ds -> 0 <= digits_value ds.
Proof.
  unfold digits_value. assert (G : forall acc, 0 <= acc ->
    Forall (fun c => Re.is_digit c = true) ds ->
    0 <= fold_left (fun a c => 10 * a + digit_value c) ds acc).
  { induction ds as [| c r IH]; intros acc A F; cbn [fold_left]; [exact A|].
    inversion F as [| ? ? Dc Fr]; subst. apply IH; [| exact Fr].
    pose proof (digit_range c Dc). lia. }
  intros F. apply G; [lia | exact F].
Qed.

Lemma span_digits_digits (s : list ascii) :
  Forall (fun c => Re.is_digit c = true) (fst (span_digits s)).
Proof.
  induction s as [| c r IH]; simpl; [constructor|].
  destruct (Re.is_digit c) eqn:D; [| constructor].
  destruct (span_digits r) as [ds rest]. simpl in *. now constructor.
Qed.

Lemma explicit_at_nonneg (prev : option ascii) (s : list ascii) (n : Z) :
  explicit_at prev s = Some n -> 0 <= n.
Proof.
  unfold explicit_at. pose proof (span_digits_digits s) as F.
  destruct (span_digits s) as [[| d ds] rest]; [discriminate|].
  simpl fst in F.
  destruct (unit_word_at _); [| discriminate].
  intros E. assert (N : n = digits_value (d :: ds)) by congruence.
  subst n. now apply digits_value_nonneg.
Qed.

Lemma first_match_nonneg (prev : option ascii) (s : list ascii) (n : Z) :
  first_match explicit_at prev s = Some n -> 0 <= n.
Proof.
  revert prev. induction s as [| c r IH]; intros prev; simpl.
  - destruct (explicit_at prev []) as [v |] eqn:E; [| discriminate].
    intros H. assert (v = n) by congruence. subst.
    now apply (explicit_at_nonneg prev []).
  - destruct (explicit_at prev (c :: r)) as [v |] eqn:E.
    + intros H. assert (v = n) by congruence. subst.
      now apply (explicit_at_nonneg prev (c :: r)).
    + apply IH.
Qed.

(** X14. The estimate of a candidate's experience is never negative,
    and it is at most 25 as soon as the text holds a year between 1980
    and the current year. *)
Theorem estimate_cv_experience_years_range (current_year : Z) (text : string) :
  0 <= estimate_cv_experience_years current_year text
  /\ forall y, In y (findall_years text) -> 1980 <= y <= current_year ->
       estimate_cv_experience_years current_year text <= 25.
Proof.
  unfold estimate_cv_experience_years. cbv zeta.
  change (fun year => ((1980 <=? year) && (year <=? current_year))%bool)
    with (valid_year current_year).
  set (valid := filter (valid_year current_year)
                  (sorted_Z (nodup Z.eq_dec (findall_years text)))).
  assert (V : forall y, In y (findall_years text) ->
                1980 <= y <= current_year -> In y valid).
  { intros y I R. unfold valid. apply filter_In. split.
    - apply (Permutation_in _ (sorted_Z_perm _)). now apply nodup_In.
    - unfold valid_year. apply andb_true_iff.
      split; apply Z.leb_le; lia. }
  destruct valid as [| y0 [| y1 r]].
  - split.
    + destruct (first_explicit text) as [n |] eqn:E; [| lia].
      exact (first_match_nonneg None (list_ascii_of_string text) n E).
    + intros y I R. destruct (V y I R).
  - split; [lia | intros; lia].
  - split; [lia | intros; lia].
Qed.







End ExperienceBounds.

(** ** Further properties of the catalog matcher *)

Section DetectionProperties.

Lemma insert_sorted_sorted (x : string) (l : list string) :
  Sorted str_le l -> Sorted str_le (Py.insert_sorted x l).
Proof.
  induction l as [| y r IH]; simpl; intros S.
  - constructor; constructor.
  - destruct (String.leb x y) eqn:B.
    + constructor; [exact S | constructor; exact B].
    + assert (T : str_le y x).
      { destruct (String.leb_total x y) as [H | H]; [congruence | exact H]. }
      inversion S as [| ? ? Sr Hr]; subst.
      constructor; [now apply IH|].
      destruct r as [| z r']; simpl.
      * constructor. exact T.
      * destruct (String.leb x z); constructor; [exact T|].
        now inversion Hr.
Qed.

Lemma sorted_set_canonical (l : list string) :
  Sorted str_le (Py.sorted (Py.set l)) /\ NoDup (Py.sorted (Py.set l)).
Proof.
  split.
  - induction (Py.set l) as [| x r IH]; [constructor|].
    change (Py.sorted (x :: r)) with (Py.insert_sorted x (Py.sorted r)).
    now apply insert_sorted_sorted.
  - apply (Permutation_NoDup (sorted_perm (Py.set l))).
    apply NoDup_nodup.
Qed.

(** X17. The detected skills are canonical names of the catalog, in
    ascending order and without repetition. *)
Theorem detect_skills_canonical (text : string) :
  Sorted str_le (detect_skills text)
  /\ NoDup (detect_skills text)
  /\ Forall (fun skill => In skill (map fst SKILL_CATALOG)) (detect_skills text).
Proof.
  unfold detect_skills. cbv zeta.
  destruct (sorted_set_canonical
              (map fst
                 (filter (fun entry =>
                            existsb (fun alias =>
                                       Re.search_bounded (Py.lower alias)
                                         (Py.lower text)) (snd entry))
                    SKILL_CATALOG))) as [S N].
  split; [exact S | split; [exact N|]].
  apply Forall_forall. intros skill I.
  rewrite sorted_In, set_In, in_map_iff in I.
  destruct I as [entry [E I]]. apply filter_In in I. destruct I as [I _].
  subst skill. now apply in_map.
Qed.


End DetectionProperties.

(** ** Further properties of the enrichment merge *)

Section MergeProperties.



(** X20. A merge that returns a profile never removes a heuristic skill
    or soft skill and keeps the keywords; when the payload brings
    technical skills, the merged list is in ascending order and without
    repetition. *)
Theorem merge_keeps_skills (cv_json merged : CvJson) (e : EnrichedCv) :
  merge_enrichment cv_json (Some e) = inl merged ->
  (forall s, In s (technical_skills cv_json) -> In s (technical_skills merged))
  /\ (forall s, In s (soft_skills cv_json) -> In s (soft_skills merged))
  /\ cv_keywords merged = cv_keywords cv_json
  /\ (e_technical_skills e <> [] ->
      Sorted str_le (technical_skills merged)
      /\ NoDup (technical_skills merged)).
Proof.
  unfold merge_enrichment.
  destruct (match e_experience_years e with
            | PyNone => inl (cv_experience_years cv_json)
            | _ => _
            end) as [years | exc]; [| discriminate].
  intros H. injection H as H. subst merged. simpl.
  unfold merge_technical_skills, merge_soft_skills.
  split; [| split; [| split; [reflexivity|]]].
  - intros s I. destruct (e_technical_skills e); [exact I|].
    rewrite sorted_In, set_In, in_app_iff. now left.
  - intros s I. destruct (e_soft_skills e); [exact I|].
    rewrite sorted_In, set_In, in_app_iff. now left.
  - intros N. destruct (e_technical_skills e) as [| k ks]; [contradiction|].
    apply sorted_set_canonical.
Qed.

Lemma merge_keeps_skills_witness :
  In "python"
    (technical_skills
       (with_technical_skills scenario_cv ["docker"; "python"])).
Proof.
  apply (merge_keeps_skills scenario_cv
           (with_technical_skills scenario_cv ["docker"; "python"])
           (skills_only [" Docker "])).
  - reflexivity.
  - simpl. now left.
Defined.


Lemma merge_experience_caught_witness :
  merge_enrichment scenario_cv (Some (experience_only (PyStr "three")))
  = inl scenario_cv.
Proof.
  apply merge_experience_caught. right. reflexivity.
Defined.

End MergeProperties.

(** ** File names and whitespace *)

Section Strings.

Lemma lower_ascii_idem (c : ascii) :
  Py.lower_ascii (Py.lower_ascii c) = Py.lower_ascii c.
Proof.
  destruct c as [[] [] [] [] [] [] [] []]; vm_compute; reflexivity.
Qed.

Lemma lower_list (s : string) :
  list_ascii_of_string (Py.lower s) = map Py.lower_ascii (list_ascii_of_string s).
Proof. induction s as [| c r IH]; simpl; [reflexivity | now rewrite IH]. Qed.

Lemma lstrip_by_first (p : ascii -> bool) (s : list ascii) :
  none_or_not p (first_char (lstrip_by p s)) = true.
Proof.
  induction s as [| c r IH]; simpl; [reflexivity|].
  destruct (p c) eqn:E; [exact IH | simpl; now rewrite E].
Qed.

Lemma rstrip_by_last (p : ascii -> bool) (s : list ascii) :
  rstrip_by p s = []
  \/ exists pre c, rstrip_by p s = pre ++ [c] /\ p c = false.
Proof.
  induction s as [| c r IH]; simpl; [now left|].
  destruct IH as [E | [pre [d [E D]]]]; rewrite E.
  - destruct (p c) eqn:P; [now left|]. right. exists [], c. now split.
  - right. destruct (pre ++ [d]) as [| x y] eqn:X.
    + destruct pre; discriminate X.
    + exists (c :: pre), d. rewrite <- X. now split.
Qed.

Lemma rstrip_by_last_char (p : ascii -> bool) (s : list ascii) :
  none_or_not p (last_char (rstrip_by p s)) = true.
Proof.
  destruct (rstrip_by_last p s) as [E | [pre [c [E C]]]]; rewrite E.
  - reflexivity.
  - unfold last_char. rewrite rev_app_distr. simpl. now rewrite C.
Qed.

Lemma rstrip_by_first (p : ascii -> bool) (s : list ascii) :
  none_or_not p (first_char s) = true ->
  none_or_not p (first_char (rstrip_by p s)) = true.
Proof.
  destruct s as [| c r]; simpl; [reflexivity|]. intros H.
  destruct (rstrip_by p r); simpl.
  - apply negb_true_iff in H. rewrite H. simpl. now rewrite H.
  - exact H.
Qed.

Lemma lstrip_by_forallb (p q : ascii -> bool) (s : list ascii) :
  forallb q s = true -> forallb q (lstrip_by p s) = true.
Proof.
  induction s as [| c r IH]; simpl; [reflexivity|]. intros H.
  apply andb_true_iff in H. destruct H as [Hc Hr].
  destruct (p c); [now apply IH | simpl; now rewrite Hc, Hr].
Qed.

Lemma rstrip_by_forallb (p q : ascii -> bool) (s : list ascii) :
  forallb q s = true -> forallb q (rstrip_by p s) = true.
Proof.
  induction s as [| c r IH]; simpl; [reflexivity|]. intros H.
  apply andb_true_iff in H. destruct H as [Hc Hr]. specialize (IH Hr).
  destruct (rstrip_by p r) as [| x y].
  - destruct (p c); simpl; [reflexivity | now rewrite Hc].
  - simpl in *. now rewrite Hc, IH.
Qed.

Lemma sub_runs_slug (in_run : bool) (s : list ascii) :
  forallb is_slug_lower (sub_runs in_run (map Py.lower_ascii s)) = true.
Proof.
  revert in_run. induction s as [| c r IH]; intros in_run; simpl; [reflexivity|].
  destruct (is_slug_char (Py.lower_ascii c)) eqn:E.
  - simpl. rewrite IH, andb_true_r. unfold is_slug_lower.
    rewrite E, lower_ascii_idem. simpl. apply Ascii.eqb_refl.
  - destruct in_run; [apply IH|]. simpl. rewrite IH. reflexivity.
Qed.

(** X23. A slug is never empty, is made of lower-case letters, digits,
    underscores and hyphens only, and neither begins nor ends with a
    hyphen. *)
Theorem slugify_shape (value : string) :
  let slug := list_ascii_of_string (slugify value) in
  slug <> []
  /\ forallb is_slug_lower slug = true
  /\ none_or_not is_hyphen (first_char slug) = true
  /\ none_or_not is_hyphen (last_char slug) = true.
Proof.
  unfold slugify. cbv zeta. rewrite lower_list.
  set (replaced := sub_runs false
                     (map Py.lower_ascii (list_ascii_of_string (strip value)))).
  assert (F : forallb is_slug_lower
                (rstrip_by is_hyphen (lstrip_by is_hyphen replaced)) = true).
  { apply rstrip_by_forallb, lstrip_by_forallb, sub_runs_slug. }
  pose proof (rstrip_by_last_char is_hyphen (lstrip_by is_hyphen replaced)) as L.
  pose proof (rstrip_by_first is_hyphen _ (lstrip_by_first is_hyphen replaced))
    as H.
  destruct (rstrip_by is_hyphen (lstrip_by is_hyphen replaced)) as [| c r] eqn:E.
  - repeat split; try reflexivity. discriminate.
  - rewrite list_ascii_of_string_of_list_ascii.
    repeat split; try assumption. discriminate.
Qed.

Lemma rstrip_list_by (s : list ascii) : rstrip_list s = rstrip_by Re.is_space s.
Proof.
  induction s as [| c r IH]; simpl; [reflexivity | now rewrite IH].
Qed.

Lemma skip_spaces_by (s : list ascii) : skip_spaces s = lstrip_by Re.is_space s.
Proof.
  induction s as [| c r IH]; simpl; [reflexivity|].
  destruct (Re.is_space c); [exact IH | reflexivity].
Qed.

Lemma single_spaced_weaken (b : bool) (s : list ascii) :
  single_spaced b s = true -> single_spaced false s = true.
Proof.
  destruct s as [| c r]; simpl; [reflexivity|].
  destruct (Re.is_space c); [| trivial].
  rewrite !andb_true_iff. intuition.
Qed.

Lemma collapse_single_spaced (b : bool) (s : list ascii) :
  single_spaced b (collapse_spaces b s) = true.
Proof.
  revert b. induction s as [| c r IH]; intros b; simpl; [reflexivity|].
  destruct (Re.is_space c) eqn:E.
  - destruct b; [apply IH|]. simpl. now rewrite IH.
  - simpl. rewrite E. apply IH.
Qed.

Lemma lstrip_single_spaced (b : bool) (s : list ascii) :
  single_spaced b s = true ->
  single_spaced true (lstrip_by Re.is_space s) = true.
Proof.
  revert b. induction s as [| c r IH]; intros b; simpl; [reflexivity|].
  destruct (Re.is_space c) eqn:E.
  - rewrite !andb_true_iff. intros [_ H]. now apply (IH true).
  - intros H. simpl. now rewrite E.
Qed.

Lemma rstrip_single_spaced (b : bool) (s : list ascii) :
  single_spaced b s = true ->
  single_spaced b (rstrip_by Re.is_space s) = true.
Proof.
  revert b. induction s as [| c r IH]; intros b; [reflexivity|].
  cbn [single_spaced rstrip_by].
  destruct (Re.is_space c) eqn:E.
  - rewrite !andb_true_iff. intros [[Hc Hb] Hr]. specialize (IH true Hr).
    destruct (rstrip_by Re.is_space r) as [| x y]; [reflexivity|].
    cbn [single_spaced]. rewrite E, Hc, Hb. exact IH.
  - intros H. specialize (IH false H).
    destruct (rstrip_by Re.is_space r) as [| x y].
    + cbn [single_spaced]. now rewrite E.
    + cbn [single_spaced]. rewrite E. exact IH.
Qed.

Lemma strip_list (s : list ascii) :
  list_ascii_of_string (strip (string_of_list_ascii s))
  = rstrip_by Re.is_space (lstrip_by Re.is_space s).
Proof.
  unfold strip. rewrite !list_ascii_of_string_of_list_ascii.
  now rewrite rstrip_list_by, skip_spaces_by.
Qed.

Lemma collapse_fixed (b : bool) (s : list ascii) :
  single_spaced b s = true -> collapse_spaces b s = s.
Proof.
  revert b. induction s as [| c r IH]; intros b; simpl; [reflexivity|].
  destruct (Re.is_space c) eqn:E.
  - rewrite !andb_true_iff. intros [[Hc Hb] Hr].
    apply negb_true_iff in Hb. subst b. apply Ascii.eqb_eq in Hc. subst c.
    now rewrite (IH true Hr).
  - intros H. now rewrite (IH false H).
Qed.

Lemma lstrip_fixed (p : ascii -> bool) (s : list ascii) :
  none_or_not p (first_char s) = true -> lstrip_by p s = s.
Proof.
  destruct s as [| c r]; simpl; [reflexivity|].
  intros H. apply negb_true_iff in H. now rewrite H.
Qed.

Lemma rstrip_fixed (p : ascii -> bool) (s : list ascii) :
  none_or_not p (last_char s) = true -> rstrip_by p s = s.
Proof.
  unfold last_char. induction s as [| c r IH]; simpl; [reflexivity|].
  intros H. destruct r as [| d r'].
  - simpl in *. apply negb_true_iff in H. now rewrite H.
  - assert (L : hd_error (rev (d :: r') ++ [c]) = hd_error (rev (d :: r'))).
    { destruct (rev (d :: r')) as [| x y] eqn:X; [| reflexivity].
      apply (f_equal (@List.length ascii)) in X.
      rewrite length_rev in X. discriminate X. }
    rewrite L in H. rewrite (IH H). reflexivity.
Qed.

(** X24. A normalized text neither begins nor ends with whitespace, its
    only whitespace characters are single spaces between other
    characters, and normalizing it again changes nothing. *)
Theorem normalize_space_shape (text : string) :
  let normal := list_ascii_of_string (normalize_space text) in
  single_spaced true normal = true
  /\ none_or_not Re.is_space (first_char normal) = true
  /\ none_or_not Re.is_space (last_char normal) = true
  /\ normalize_space (normalize_space text) = normalize_space text.
Proof.
  cbv zeta.
  assert (E : list_ascii_of_string (normalize_space text)
              = rstrip_by Re.is_space
                  (lstrip_by Re.is_space
                     (collapse_spaces false (list_ascii_of_string text)))).
  { unfold normalize_space. apply strip_list. }
  set (c := collapse_spaces false (list_ascii_of_string text)) in E.
  assert (S : single_spaced true (list_ascii_of_string (normalize_space text))
              = true).
  { rewrite E. apply rstrip_single_spaced.
    apply (lstrip_single_spaced false). apply collapse_single_spaced. }
  assert (F : none_or_not Re.is_space
                (first_char (list_ascii_of_string (normalize_space text))) = true).
  { rewrite E. apply rstrip_by_first, lstrip_by_first. }
  assert (L : none_or_not Re.is_space
                (last_char (list_ascii_of_string (normalize_space text))) = true).
  { rewrite E. apply rstrip_by_last_char. }
  split; [exact S | split; [exact F | split; [exact L|]]].
  rewrite <- (string_of_list_ascii_of_string (normalize_space text)) at 2.
  rewrite <- (string_of_list_ascii_of_string
                (normalize_space (normalize_space text))).
  f_equal. unfold normalize_space at 1. rewrite strip_list.
  rewrite (collapse_fixed false) by (now apply (single_spaced_weaken true)).
  rewrite lstrip_fixed by exact F. now apply rstrip_fixed.
Qed.

End Strings.

(** ** The merge of the languages *)

Section LanguageMerge.

Lemma sdict_set_fresh_key {V : Type} (k k' : string) (v : V)
    (d : list (string * V)) :
  k' <> k -> In k' (map fst (Dict.set String.eqb k v d)) -> In k' (map fst d).
Proof.
  intros N. induction d as [| [k0 v0] r IH]; simpl.
  - intros [E | []]. congruence.
  - destruct (String.eqb k0 k) eqn:E0; simpl.
    + apply String.eqb_eq in E0. subst k0.
      intros [E | I]; [congruence | now right].
    + intros [E | I]; [now left | right; now apply IH].
Qed.

Lemma sdict_set_keys {V : Type} (k : string) (v : V) (d : list (string * V)) :
  NoDup (map fst d) -> NoDup (map fst (Dict.set String.eqb k v d)).
Proof.
  induction d as [| [k' v'] r IH]; simpl; intros N.
  - constructor; [intros [] | constructor].
  - inversion N as [| ? ? Nk Nr]; subst.
    destruct (String.eqb k' k) eqn:E; simpl.
    + apply String.eqb_eq in E. subst k'. now constructor.
    + apply String.eqb_neq in E.
      constructor; [| now apply IH].
      intros I. apply Nk. now apply (sdict_set_fresh_key k k' v r).
Qed.













End LanguageMerge.

(** ** Keywords and the requirement profile *)

Section Keywords.

Lemma sdict_set_key_in {V : Type} (k k' : string) (v : V)
    (d : list (string * V)) :
  In k' (map fst (Dict.set String.eqb k v d)) -> k' = k \/ In k' (map fst d).
Proof.
  intros I. destruct (string_dec k' k) as [E | N]; [now left | right].
  now apply (sdict_set_fresh_key k k' v d).
Qed.

Lemma counter_keys (words : list string) :
  NoDup (map fst (counter words))
  /\ forall w, In w (map fst (counter words)) -> In w words.
Proof.
  unfold counter.
  assert (G : forall (d : list (string * nat)),
             NoDup (map fst d) ->
             NoDup (map fst
                      (fold_left
                         (fun d w =>
                            Dict.set String.eqb w
                              (S (match Dict.get String.eqb w d with
                                  | Some n => n
                                  | None => O
                                  end)) d) words d))
             /\ forall w,
                  In w (map fst
                          (fold_left
                             (fun d w =>
                                Dict.set String.eqb w
                                  (S (match Dict.get String.eqb w d with
                                      | Some n => n
                                      | None => O
                                      end)) d) words d)) ->
                  In w (map fst d) \/ In w words).
  { induction words as [| x words IH]; intros d N; simpl.
    - split; [exact N | intros w I; now left].
    - destruct (IH _ (sdict_set_keys x
                        (S (match Dict.get String.eqb x d with
                            | Some n => n
                            | None => O
                            end)) d N)) as [N' K].
      split; [exact N'|]. intros w I. apply K in I.
      destruct I as [I | I]; [| right; now right].
      apply sdict_set_key_in in I. destruct I as [E | I];
        [right; left; now symmetry | now left]. }
  destruct (G [] (NoDup_nil _)) as [N K]. split; [exact N|].
  intros w I. destruct (K w I) as [[] | H]. exact H.
Qed.

Lemma insert_common_perm (x : string * nat) (l : list (string * nat)) :
  Permutation (x :: l) (insert_common x l).
Proof.
  induction l as [| y r IH]; simpl; [reflexivity|].
  destruct (Nat.ltb (snd x) (snd y)); [| reflexivity].
  rewrite perm_swap. now apply perm_skip.
Qed.

Lemma common_order_perm (d : list (string * nat)) :
  Permutation d (fold_right insert_common [] d).
Proof.
  induction d as [| x r IH]; simpl; [reflexivity|].
  rewrite <- insert_common_perm. now apply perm_skip.
Qed.

Lemma firstn_NoDup {A : Type} (n : nat) (l : list A) :
  NoDup l -> NoDup (firstn n l).
Proof.
  intros N. rewrite <- (firstn_skipn n l) in N.
  now apply NoDup_app_remove_r in N.
Qed.

Lemma firstn_incl {A : Type} (n : nat) (l : list A) (x : A) :
  In x (firstn n l) -> In x l.
Proof.
  intros I. rewrite <- (firstn_skipn n l). apply in_or_app. now left.
Qed.

Lemma cleaned_tokens_kept (text : string) :
  Forall kept_word (cleaned_tokens text).
Proof.
  apply Forall_forall. intros w I. unfold cleaned_tokens in I.
  apply filter_In in I. destruct I as [_ B].
  apply andb_true_iff in B. destruct B as [L M].
  split; [now apply Nat.leb_le|].
  intros S. apply mem_In in S. rewrite S in M. discriminate M.
Qed.

(** X26. The keywords of a text are at most [limit], all different, each
    of at least three characters and none a stop word. *)
Theorem extract_keywords_shape (text : string) (limit : nat) :
  (List.length (extract_keywords text limit) <= limit)%nat
  /\ NoDup (extract_keywords text limit)
  /\ Forall kept_word (extract_keywords text limit).
Proof.
  unfold extract_keywords, most_common.
  destruct (counter_keys (cleaned_tokens text)) as [N K].
  pose proof (common_order_perm (counter (cleaned_tokens text))) as P.
  split; [| split].
  - rewrite length_map. apply firstn_le_length.
  - rewrite <- firstn_map. apply firstn_NoDup.
    apply (Permutation_NoDup (Permutation_map fst P) N).
  - apply Forall_forall. intros w I.
    rewrite <- firstn_map in I. apply firstn_incl in I.
    apply (Permutation_in _ (Permutation_sym (Permutation_map fst P))) in I.
    apply K in I.
    pose proof (cleaned_tokens_kept text) as F.
    rewrite Forall_forall in F. now apply F.
Qed.





End Keywords.

(** ** Containment, and the insertion of a new tender *)

Section Containment.



(** X29. Inserting a tender whose fingerprint is new, into a table whose
    ids do not exceed its sequence, appends one row that holds the
    payload under the next id and the time of the call, returns that
    row, keeps the invariant of the table, and makes the fingerprint
    find the row. *)
Theorem insert_tender_document_new (now : string) (payload : TenderPayload)
    (t : TenderTable) :
  table_ok t ->
  select_by_hash (p_content_hash payload) t = None ->
  let row := {| id := seq t + 1;
                source_name := p_source_name payload;
                file_path := p_file_path payload;
                content_hash := p_content_hash payload;
                json_path := p_json_path payload;
                row_title := p_title payload;
                search_text := p_search_text payload;
                required_skills_json := p_required_skills payload;
                created_at := now |} in
  let t' := snd (insert_tender_document now payload t) in
  fst (insert_tender_document now payload t) = Some row
  /\ rows t' = rows t ++ [row]
  /\ table_ok t'
  /\ select_by_hash (p_content_hash payload) t' = Some row.
Proof.
  intros Ok F row t'. subst t'.
  unfold insert_tender_document. rewrite F. cbv zeta. simpl fst. simpl snd.
  fold row. split; [| split; [reflexivity | split]].
  - now apply select_new_row.
  - unfold table_ok in *. simpl rows. simpl seq. apply Forall_app. split.
    + rewrite Forall_forall in *. intros r I. specialize (Ok r I). lia.
    + constructor; [simpl; lia | constructor].
  - unfold select_by_hash in *. simpl rows.
    rewrite find_app_none by exact F. simpl content_hash.
    now rewrite String.eqb_refl.
Qed.

Lemma insert_tender_document_new_witness :
  rows (snd (insert_tender_document "2024-01-01T00:00:00"
               sample_tender_payload empty_tender_table))
  = rows empty_tender_table
    ++ [ {| id := seq empty_tender_table + 1;
            source_name := p_source_name sample_tender_payload;
            file_path := p_file_path sample_tender_payload;
            content_hash := p_content_hash sample_tender_payload;
            json_path := p_json_path sample_tender_payload;
            row_title := p_title sample_tender_payload;
            search_text := p_search_text sample_tender_payload;
            required_skills_json := p_required_skills sample_tender_payload;
            created_at := "2024-01-01T00:00:00" |} ].
Proof.
  apply (insert_tender_document_new "2024-01-01T00:00:00"
           sample_tender_payload empty_tender_table).
  - constructor.
  - reflexivity.
Defined.

End Containment.
